(** * Heuristic URL scorer of the Vulnerabilities-Scanner front end

    A shallow embedding of [performComprehensiveScan] and [handleScan]
    (the richer [URLScanner] component) and of the history update of the
    simpler component [src/components/URLScanner.tsx], followed by the
    properties of the scorer and of the scan history.

    Conventions of the embedding:
    - a JavaScript string is a [string]: a sequence of code units, each
      below 256, so [String.length] is the [.length] of the source;
    - a JavaScript number that only ever holds an integer is a [Z];
    - a [throw] is the [Throw] completion, a normal end is [Return];
    - the URL constructor of the platform is a parameter [new_URL];
    - [Math.random()] and [new Date()] are inputs of the scan. *)

From Stdlib Require Import Bool Ascii String List ZArith QArith Lia.
From Stdlib Require Import DecimalString DecimalZ DecimalPos.
Import ListNotations.

Local Open Scope string_scope.
Local Open Scope Z_scope.

(** ** JavaScript primitives used by the scanner *)

Module JS.

(** [s.startsWith(pat)]. *)
Fixpoint startsWith (s pat : string) : bool :=
  match pat, s with
  | EmptyString, _ => true
  | String p pat', String c s' => Ascii.eqb c p && startsWith s' pat'
  | String _ _, EmptyString => false
  end.

(** [s.includes(pat)]: [pat] occurs in [s] at some position. *)
Fixpoint includes (s pat : string) : bool :=
  startsWith s pat ||
  match s with
  | EmptyString => false
  | String _ s' => includes s' pat
  end.

(** Lower-case mapping of one code unit below 256: the letters A-Z and
    the upper-case letters of the Latin-1 supplement (all of C0-DE but
    the multiplication sign D7) move up by 32. *)
Definition lowerUnit (c : ascii) : ascii :=
  let n := N_of_ascii c in
  if ((65 <=? n) && (n <=? 90) ||
      (192 <=? n) && (n <=? 222) && negb (n =? 215))%N
  then ascii_of_N (n + 32) else c.

(** Every code unit of [s] satisfies [p]. *)
Fixpoint all (p : ascii -> bool) (s : string) : bool :=
  match s with
  | EmptyString => true
  | String c s' => p c && all p s'
  end.

(** [s.toLowerCase()] on code units below 256, where the mapping of the
    platform is this map of single code units. Beyond them the mapping
    depends on the context (a capital sigma at the end of a word), so
    what is proved by splitting a string is proved of these strings. *)
Fixpoint toLowerCase (s : string) : string :=
  match s with
  | EmptyString => EmptyString
  | String c s' => String (lowerUnit c) (toLowerCase s')
  end.

(** White space and line terminators among the code units below 256:
    TAB, LF, VT, FF, CR, SPACE and NBSP. *)
Definition isWhiteSpace (c : ascii) : bool :=
  let n := N_of_ascii c in
  ((9 <=? n) && (n <=? 13) || (n =? 32) || (n =? 160))%N.

Fixpoint trimStart (s : string) : string :=
  match s with
  | EmptyString => EmptyString
  | String c s' => if isWhiteSpace c then trimStart s' else s
  end.

Fixpoint trimEnd (s : string) : string :=
  match s with
  | EmptyString => EmptyString
  | String c s' =>
      match trimEnd s' with
      | EmptyString => if isWhiteSpace c then EmptyString
                       else String c EmptyString
      | t => String c t
      end
  end.

(** [s.trim()]. *)
Definition trim (s : string) : string := trimEnd (trimStart s).

(** Truthiness of a string: only the empty string is falsy. *)
Definition truthy (s : string) : bool :=
  match s with EmptyString => false | String _ _ => true end.

Definition isDigit (c : ascii) : bool :=
  let n := N_of_ascii c in ((48 <=? n) && (n <=? 57))%N.

Definition digitValue (c : ascii) : Z := Z.of_N (N_of_ascii c) - 48.

Fixpoint digitsFrom (acc : Z) (s : string) : Z :=
  match s with
  | String c s' => if isDigit c then digitsFrom (10 * acc + digitValue c) s'
                   else acc
  | EmptyString => acc
  end.

(** A number that may be NaN. *)
Inductive Number : Type := Num (z : Z) | NaN.

(** [parseInt(s)] on a string without leading white space or sign, as
    every [port] of a URL is: the leading decimal digits are read, and
    a string that starts with none gives NaN. *)
Definition parseInt (s : string) : Number :=
  match s with
  | String c _ => if isDigit c then Num (digitsFrom 0 s) else NaN
  | EmptyString => NaN
  end.

(** [l.slice(0, n)] for [0 <= n]. *)
Definition slice0 {A : Type} (n : nat) (l : list A) : list A := firstn n l.

(** [l.some(p)]. *)
Definition some {A : Type} (p : A -> bool) (l : list A) : bool := existsb p l.

(** Outcome of evaluating a piece of code: a value, or a thrown error. *)
Inductive Error : Type := TypeError.

Inductive Completion (A : Type) : Type :=
| Return (a : A)
| Throw (e : Error).
Arguments Return {A} a.
Arguments Throw {A} e.

(** The double written [0.3] in the source, as the rational it is. *)
Definition double_0_3 : Q := 5404319552844595 # 18014398509481984.

(** The string of an integer in a template literal: its decimal digits,
    after a minus sign when it is negative (integers below 10^21 in
    absolute value, as every time in milliseconds is). *)
Definition numberToString (n : Z) : string :=
  NilZero.string_of_int (Z.to_int n).

End JS.

Import JS.

(** ** Data model *)

Module URL.
(** The three properties the scanner reads from a [URL] object. *)
Record t : Type := mk { hostname : string; protocol : string; port : string }.
End URL.

Inductive CheckStatus : Type := pass | fail | warning.
Inductive Impact : Type := low | medium | high.
Inductive Verdict : Type := safe | suspicious | unsafe.

Module SecurityCheck.
Record t : Type := mk {
  name : string;
  status : CheckStatus;
  description : string;
  impact : Impact
}.
End SecurityCheck.

Module Metadata.
Record t : Type := mk {
  responseTime : Z;
  domain : string;
  protocol : string;
  port : option Number;
  redirects : Z
}.
End Metadata.

Module ScanResult.
Record t : Type := mk {
  url : string;
  status : Verdict;
  score : Z;
  checks : list SecurityCheck.t;
  metadata : Metadata.t;
  timestamp : Z
}.
End ScanResult.

(** The simulated measurements of one scan: the value of [Math.random()]
    behind the Security Headers rule, and the two already floored
    products [Math.floor(Math.random() * 1000)] and
    [Math.floor(Math.random() * 3)] behind the metadata. *)
Record Simulated : Type := {
  headersDraw : Q;
  responseDraw : Z;
  redirectsDraw : Z
}.

(** ** The local state of a scan and its effects

    [performComprehensiveScan] mutates two locals, the array [checks] and
    the number [score], and may leave a block by a [throw]. A computation
    takes the locals and gives back a completion together with the locals
    as they are at that point, so that a [catch] sees what was done
    before the [throw]. *)

Record Locals : Type := { checks : list SecurityCheck.t; score : Z }.

Definition M (A : Type) : Type := Locals -> Completion A * Locals.

Definition ret {A : Type} (a : A) : M A := fun st => (Return a, st).

Definition bind {A B : Type} (c : M A) (k : A -> M B) : M B :=
  fun st =>
    match c st with
    | (Return a, st') => k a st'
    | (Throw e, st') => (Throw e, st')
    end.

Definition tryCatch {A : Type} (body : M A) (handler : Error -> M A) : M A :=
  fun st =>
    match body st with
    | (Return a, st') => (Return a, st')
    | (Throw e, st') => handler e st'
    end.

Definition lift {A : Type} (c : Completion A) : M A := fun st => (c, st).

(** [checks.push(c)]. *)
Definition push (c : SecurityCheck.t) : M unit :=
  fun st => (Return tt, {| checks := checks st ++ [c]; score := score st |}).

(** [score -= n]. *)
Definition subtract (n : Z) : M unit :=
  fun st => (Return tt, {| checks := checks st; score := score st - n |}).

(** [score = n]. *)
Definition assign (n : Z) : M unit :=
  fun st => (Return tt, {| checks := checks st; score := n |}).

Definition readScore : M Z := fun st => (Return (score st), st).
Definition readChecks : M (list SecurityCheck.t) :=
  fun st => (Return (checks st), st).

Declare Scope js_scope.
Delimit Scope js_scope with js.
Notation "x <- c ;; k" := (bind c (fun x => k))
  (at level 61, c at next level, right associativity) : js_scope.
Notation "c ;; k" := (bind c (fun _ => k))
  (at level 61, right associativity) : js_scope.
Local Open Scope js_scope.

Definition check (n : string) (s : CheckStatus) (d : string) (i : Impact)
  : SecurityCheck.t :=
  SecurityCheck.mk n s d i.

(** ** The scanner, [performComprehensiveScan] *)

Definition suspiciousDomains : list string :=
  ["bit.ly"; "tinyurl.com"; "t.co"; "goo.gl"; "localhost"; "127.0.0.1"].

Definition phishingPatterns : list string :=
  ["secure-update"; "verify-account"; "suspended-account"; "urgent-action"].

Definition maliciousExtensions : list string :=
  [".exe"; ".scr"; ".bat"; ".cmd"; ".pif"].

Definition isDomainSuspicious (domain : string) : bool :=
  some (fun suspicious => includes domain suspicious) suspiciousDomains.

Definition hasPhishingPattern (inputUrl : string) : bool :=
  some (fun pattern => includes (toLowerCase inputUrl) pattern) phishingPatterns.

Definition hasMaliciousExt (inputUrl : string) : bool :=
  some (fun ext => includes (toLowerCase inputUrl) ext) maliciousExtensions.

(** [Math.random() > 0.3]. *)
Definition hasSecurityHeaders (sim : Simulated) : bool :=
  negb (Qle_bool (headersDraw sim) double_0_3).

(** HTTPS Check. *)
Definition httpsCheck (protocol : string) : M unit :=
  if (protocol =? "https:")%string then
    push (check "HTTPS Protocol" pass
            "Site uses secure HTTPS connection" high)
  else
    (push (check "HTTPS Protocol" fail
             "Site does not use secure HTTPS connection" high) ;;
     subtract 30).

(** Domain Reputation Check. *)
Definition domainReputationCheck (domain : string) : M unit :=
  if isDomainSuspicious domain then
    push (check "Domain Reputation" warning
            "Domain is a URL shortener or potentially suspicious" medium) ;;
    subtract 20
  else
    push (check "Domain Reputation" pass
            "Domain appears legitimate" medium).

(** URL Length Analysis. *)
Definition urlLengthCheck (inputUrl : string) : M unit :=
  if Z.of_nat (String.length inputUrl) >? 200 then
    push (check "URL Length" warning
            "Unusually long URL detected (potential obfuscation)" low) ;;
    subtract 10
  else
    push (check "URL Length" pass
            "URL length is within normal range" low).

(** Phishing Patterns. *)
Definition phishingCheck (inputUrl : string) : M unit :=
  if hasPhishingPattern inputUrl then
    push (check "Phishing Indicators" fail
            "Contains common phishing keywords" high) ;;
    subtract 25
  else
    push (check "Phishing Indicators" pass
            "No common phishing patterns detected" high).

(** Malicious Extensions. *)
Definition fileTypeCheck (inputUrl : string) : M unit :=
  if hasMaliciousExt inputUrl then
    push (check "File Type Safety" fail
            "URL points to potentially dangerous file type" high) ;;
    subtract 35
  else
    push (check "File Type Safety" pass
            "No dangerous file extensions detected" medium).

(** SSL Certificate Simulation. *)
Definition sslCheck (protocol : string) : M unit :=
  if (protocol =? "https:")%string then
    push (check "SSL Certificate" pass
            "Valid SSL certificate (simulated check)" high)
  else
    push (check "SSL Certificate" fail
            "No SSL certificate available" high).

(** Security Headers Simulation. *)
Definition securityHeadersCheck (sim : Simulated) : M unit :=
  let hasSecurityHeaders := hasSecurityHeaders sim in
  push (check "Security Headers"
          (if hasSecurityHeaders then pass else warning)
          (if hasSecurityHeaders
           then "Essential security headers detected"
           else "Missing important security headers (CSP, HSTS)")
          medium) ;;
  if negb hasSecurityHeaders then subtract 15 else ret tt.

(** Determine overall status. *)
Definition overallStatus (score : Z) : Verdict :=
  if score >=? 80 then safe
  else if score >=? 50 then suspicious
  else unsafe.

Section Scanner.

(** [new URL(s)] of the platform: a [URL] object, or a [TypeError]. *)
Variable new_URL : string -> Completion URL.t.

(** The [try] block. *)
Definition tryBlock (inputUrl : string) (sim : Simulated) : M unit :=
  urlObj <- lift (new_URL inputUrl) ;;
  let domain := URL.hostname urlObj in
  let protocol := URL.protocol urlObj in
  httpsCheck protocol ;;
  domainReputationCheck domain ;;
  urlLengthCheck inputUrl ;;
  phishingCheck inputUrl ;;
  fileTypeCheck inputUrl ;;
  sslCheck protocol ;;
  securityHeadersCheck sim.

(** The [catch] block. *)
Definition catchBlock (error : Error) : M unit :=
  push (check "URL Format" fail "Invalid URL format" high) ;;
  assign 0.

(** The [metadata] object literal of the [return] statement; its
    properties are evaluated in the order written, each [new URL] anew
    and outside the [try]. *)
Definition metadataLiteral (inputUrl : string) (sim : Simulated)
  : M Metadata.t :=
  let responseTime := responseDraw sim + 200 in
  u1 <- lift (new_URL inputUrl) ;;
  u2 <- lift (new_URL inputUrl) ;;
  u3 <- lift (new_URL inputUrl) ;;
  port <- (if truthy (URL.port u3)
           then u4 <- lift (new_URL inputUrl) ;;
                ret (Some (parseInt (URL.port u4)))
           else ret None) ;;
  let redirects := redirectsDraw sim in
  ret (Metadata.mk responseTime (URL.hostname u1) (URL.protocol u2)
         port redirects).

Definition scanBody (inputUrl : string) (sim : Simulated) (now : Z)
  : M ScanResult.t :=
  tryCatch (tryBlock inputUrl sim) catchBlock ;;
  score <- readScore ;;
  let status := overallStatus score in
  checks <- readChecks ;;
  metadata <- metadataLiteral inputUrl sim ;;
  ret (ScanResult.mk inputUrl status (Z.max 0 score) checks metadata now).

(** [performComprehensiveScan(inputUrl)], with [checks = []] and
    [score = 100] at entry; [now] is the value of [new Date()]. *)
Definition performComprehensiveScan
    (inputUrl : string) (sim : Simulated) (now : Z)
  : Completion ScanResult.t :=
  fst (scanBody inputUrl sim now {| checks := []; score := 100 |}).

End Scanner.

(** ** A URL constructor to run the scanner on

    [basicURL] reads absolute [http] and [https] URLs of the plain shape
    [scheme://host[:port][/...]]: a host made of non-empty labels of
    ASCII letters, digits and hyphens that ends in a label starting with
    a letter, or a dotted quad of decimal bytes; an optional decimal port
    below 65536. On such a string it gives the lower-cased host, the
    lower-cased scheme followed by a colon, and the port unless it is the
    default of the scheme, as the URL Standard does. Every other string is
    rejected, among them all strings without a colon, which the URL
    Standard rejects as well. The properties below hold for any
    constructor; this one evaluates them on concrete strings. *)

Module BasicURL.

(** The part of [s] before the first code unit satisfying [stop], and
    the part from that code unit on. *)
Fixpoint break (stop : ascii -> bool) (s : string) : string * string :=
  match s with
  | EmptyString => (EmptyString, EmptyString)
  | String c s' =>
      if stop c then (EmptyString, s)
      else let (a, b) := break stop s' in (String c a, b)
  end.

(** The labels of a host: the pieces between dots. *)
Fixpoint labels (s : string) : list string :=
  match s with
  | EmptyString => [EmptyString]
  | String c s' =>
      if Ascii.eqb c "." then EmptyString :: labels s'
      else match labels s' with
           | l :: ls => String c l :: ls
           | [] => [String c EmptyString]
           end
  end.

Definition isLetter (c : ascii) : bool :=
  let n := N_of_ascii c in ((97 <=? n) && (n <=? 122))%N.

Definition isLabelUnit (c : ascii) : bool :=
  isLetter c || isDigit c || Ascii.eqb c "-".

Definition isLabel (l : string) : bool :=
  truthy l && all isLabelUnit l && negb (startsWith l "xn--").

(** A decimal number without leading zero that is at most [bound]. *)
Definition isDecimalUpTo (bound : Z) (l : string) : bool :=
  truthy l && all isDigit l &&
  (negb (startsWith l "0") || (l =? "0")%string) &&
  (Nat.leb (String.length l) 5) && (digitsFrom 0 l <=? bound).

Definition startsWithLetter (l : string) : bool :=
  match l with String c _ => isLetter c | EmptyString => false end.

Definition isHost (h : string) : bool :=
  let ls := labels h in
  (forallb isLabel ls && startsWithLetter (last ls EmptyString)) ||
  (Nat.eqb (List.length ls) 4 && forallb (isDecimalUpTo 255) ls).

Definition defaultPort (scheme : string) : string :=
  if (scheme =? "https")%string then "443" else "80".

Definition isAuthorityEnd (c : ascii) : bool :=
  Ascii.eqb c "/" || Ascii.eqb c "?" || Ascii.eqb c "#" || Ascii.eqb c "\".

Definition basicURL (s : string) : Completion URL.t :=
  let (scheme0, afterScheme) := break (Ascii.eqb ":") s in
  let scheme := toLowerCase scheme0 in
  if ((scheme =? "http") || (scheme =? "https"))%string
     && startsWith afterScheme "://" then
    let authority := fst (break isAuthorityEnd
                            (substring 3 (String.length afterScheme) afterScheme)) in
    let (host0, afterHost) := break (Ascii.eqb ":") authority in
    let host := toLowerCase host0 in
    let port := substring 1 (String.length afterHost) afterHost in
    if isHost host && (negb (truthy port) || isDecimalUpTo 65535 port) then
      Return (URL.mk host (scheme ++ ":")
                (if (port =? defaultPort scheme)%string then "" else port))
    else Throw TypeError
  else Throw TypeError.

End BasicURL.

Import BasicURL.

(** ** The scan history and [handleScan]

    Both components keep the history in a state variable and update it
    with the function [prev => [result, ...prev.slice(0, n)]]: [n] is 19
    in the richer component and 9 in the simpler one. *)

Definition historyUpdater {A : Type} (n : nat) (result : A) (prev : list A)
  : list A :=
  result :: slice0 n prev.

(** The history after the results [rs] have been recorded one after the
    other, the first of [rs] first. *)
Definition recordAll {A : Type} (n : nat) (rs : list A) (history : list A)
  : list A :=
  fold_left (fun prev result => historyUpdater n result prev) rs history.

(** The richer component. [handleScan] is taken as one step: the URL it
    scans is the one of the render in which it was called, and the
    update of the history is applied to the history as it is when the
    scan ends. Of a toast only the title is kept. *)
Module Rich.

Record State : Type := {
  url : string;
  isScanning : bool;
  scanResult : option ScanResult.t;
  scanHistory : list ScanResult.t;
  toasts : list string
}.

Definition initial : State :=
  {| url := ""; isScanning := false; scanResult := None;
     scanHistory := []; toasts := [] |}.

Definition setUrl (u : string) (c : State) : State :=
  {| url := u; isScanning := isScanning c; scanResult := scanResult c;
     scanHistory := scanHistory c; toasts := toasts c |}.

Definition setIsScanning (b : bool) (c : State) : State :=
  {| url := url c; isScanning := b; scanResult := scanResult c;
     scanHistory := scanHistory c; toasts := toasts c |}.

Definition setScanResult (r : option ScanResult.t) (c : State) : State :=
  {| url := url c; isScanning := isScanning c; scanResult := r;
     scanHistory := scanHistory c; toasts := toasts c |}.

Definition setScanHistory
    (f : list ScanResult.t -> list ScanResult.t) (c : State) : State :=
  {| url := url c; isScanning := isScanning c; scanResult := scanResult c;
     scanHistory := f (scanHistory c); toasts := toasts c |}.

Definition toast (title : string) (c : State) : State :=
  {| url := url c; isScanning := isScanning c; scanResult := scanResult c;
     scanHistory := scanHistory c; toasts := toasts c ++ [title] |}.

Definition simulatedUrls : list string :=
  ["https://example.com/qr-decoded"; "https://google.com";
   "http://suspicious-site.com"; "https://github.com"].

(** What the user and the timers can do to the component. *)
Inductive Event : Type :=
| Edit (value : string)
| Scan (sim : Simulated) (now : Z)
| FileUpload (isImage : bool) (pick : nat)
| Export
| Rescan (historyUrl : string).

Section Handlers.

Variable new_URL : string -> Completion URL.t.

Definition handleScan (sim : Simulated) (now : Z) (c : State) : State :=
  if negb (truthy (trim (url c))) then toast "Invalid Input" c
  else
    let c1 := setIsScanning true c in
    let c2 :=
      match performComprehensiveScan new_URL (trim (url c)) sim now with
      | Return result =>
          toast "Scan Complete"
            (setScanHistory (historyUpdater 19 result)
               (setScanResult (Some result) c1))
      | Throw error => toast "Scan Failed" c1
      end in
    setIsScanning false c2.

(** [pick] is [Math.floor(Math.random() * simulatedUrls.length)]. *)
Definition handleFileUpload (isImage : bool) (pick : nat) (c : State)
  : State :=
  if isImage then
    toast "QR Code Detected" (setUrl (nth pick simulatedUrls "") c)
  else c.

Definition exportResults (c : State) : State :=
  match scanResult c with
  | None => c
  | Some _ => toast "Results Exported" c
  end.

Definition rescanFromHistory (historyUrl : string) (c : State) : State :=
  setScanResult None (setUrl historyUrl c).

Definition step (c : State) (e : Event) : State :=
  match e with
  | Edit value => setUrl value c
  | Scan sim now => handleScan sim now c
  | FileUpload isImage pick => handleFileUpload isImage pick c
  | Export => exportResults c
  | Rescan historyUrl => rescanFromHistory historyUrl c
  end.

Definition run (events : list Event) (c : State) : State :=
  fold_left step events c.

(** The results that the event [e], met in state [c], hands to the
    history: the result of a scan that returned, else nothing. *)
Definition scanned (c : State) (e : Event) : list ScanResult.t :=
  match e with
  | Scan sim now =>
      if negb (truthy (trim (url c))) then []
      else match performComprehensiveScan new_URL (trim (url c)) sim now with
           | Return result => [result]
           | Throw _ => []
           end
  | _ => []
  end.

(** All results of a run, the oldest first. *)
Fixpoint results (events : list Event) (c : State) : list ScanResult.t :=
  match events with
  | [] => []
  | e :: events' => scanned c e ++ results events' (step c e)
  end.

End Handlers.

(** [filteredHistory], computed at each render from the history and the
    text of the filter box. *)
Definition filteredHistory (scanHistory : list ScanResult.t)
    (historyFilter : string) : list ScanResult.t :=
  filter (fun scan => includes (toLowerCase (ScanResult.url scan))
                        (toLowerCase historyFilter))
    scanHistory.

(** The name [exportResults] gives to the downloaded file; [now] is the
    value of [Date.now()]. *)
Definition exportFileName (now : Z) : string :=
  "vulnerability-scan-" ++ numberToString now ++ ".json".

End Rich.

(** The simpler component, [src/components/URLScanner.tsx], with its
    scanner [validateURL]. The three tests of [validateURL] are regular
    expressions or [startsWith]; on code units below 256 the flag [i]
    only identifies the ASCII letters with their other case. *)
Module Simple.

Record Checks : Type := {
  httpsUsed : bool;
  validFormat : bool;
  suspiciousPattern : bool;
  urlLength : Z
}.

Record Result : Type := {
  resultUrl : string;
  status : Verdict;
  checks : Checks;
  timestamp : Z
}.

(** What is left of [s] behind a leading [http://] or [https://], the
    letters in either case. *)
Definition behindScheme (s : string) : option string :=
  if startsWith (toLowerCase s) "https://"
  then Some (substring 8 (String.length s) s)
  else if startsWith (toLowerCase s) "http://"
  then Some (substring 7 (String.length s) s)
  else None.

(** The class [[^\s/$.?#]]. *)
Definition isHostStart (c : ascii) : bool :=
  negb (isWhiteSpace c || Ascii.eqb c "/" || Ascii.eqb c "$" ||
        Ascii.eqb c "." || Ascii.eqb c "?" || Ascii.eqb c "#").

(** The dot of a regular expression: anything but a line terminator. *)
Definition isNotLineTerminator (c : ascii) : bool :=
  let n := N_of_ascii c in negb ((n =? 10) || (n =? 13))%N.

(** [/^https?:\/\/[^\s/$.?#].[^\s]*$/i.test(s)]. *)
Definition validFormatTest (s : string) : bool :=
  match behindScheme s with
  | Some (String c1 (String c2 rest)) =>
      isHostStart c1 && isNotLineTerminator c2 &&
      all (fun c => negb (isWhiteSpace c)) rest
  | _ => false
  end.

(** [/(?:bit\.ly|tinyurl|t\.co|goo\.gl|localhost|127\.0\.0\.1|192\.168|10\.|172\.)/i.test(s)]. *)
Definition suspiciousPatternTest (s : string) : bool :=
  some (fun alternative => includes (toLowerCase s) alternative)
    ["bit.ly"; "tinyurl"; "t.co"; "goo.gl"; "localhost"; "127.0.0.1";
     "192.168"; "10."; "172."].

(** [validateURL(inputUrl)]; [now] is the value of [new Date()]. *)
Definition validateURL (inputUrl : string) (now : Z) : Result :=
  let checks :=
    {| httpsUsed := startsWith inputUrl "https://";
       validFormat := validFormatTest inputUrl;
       suspiciousPattern := suspiciousPatternTest inputUrl;
       urlLength := Z.of_nat (String.length inputUrl) |} in
  let status :=
    if negb (validFormat checks) then unsafe
    else if negb (httpsUsed checks) || suspiciousPattern checks
            || (urlLength checks >? 200)
    then suspicious
    else safe in
  {| resultUrl := inputUrl; status := status; checks := checks;
     timestamp := now |}.

Record State : Type := {
  url : string;
  isScanning : bool;
  scanResult : option Result;
  scanHistory : list Result
}.

Definition initial : State :=
  {| url := ""; isScanning := false; scanResult := None;
     scanHistory := [] |}.

Definition setUrl (u : string) (c : State) : State :=
  {| url := u; isScanning := isScanning c; scanResult := scanResult c;
     scanHistory := scanHistory c |}.

Inductive Event : Type :=
| Edit (value : string)
| Scan (now : Z)
| FileUpload (isImage : bool).

(** [handleScan], taken as one step like the one of the richer
    component. *)
Definition handleScan (now : Z) (c : State) : State :=
  if negb (truthy (trim (url c))) then c
  else
    let result := validateURL (trim (url c)) now in
    {| url := url c; isScanning := false; scanResult := Some result;
       scanHistory := historyUpdater 9 result (scanHistory c) |}.

Definition handleFileUpload (isImage : bool) (c : State) : State :=
  if isImage then setUrl "https://example.com/qr-decoded-url" c else c.

Definition step (c : State) (e : Event) : State :=
  match e with
  | Edit value => setUrl value c
  | Scan now => handleScan now c
  | FileUpload isImage => handleFileUpload isImage c
  end.

Definition run (events : list Event) (c : State) : State :=
  fold_left step events c.

(** The results that the event [e], met in state [c], hands to the
    history. *)
Definition scanned (c : State) (e : Event) : list Result :=
  match e with
  | Scan now =>
      if negb (truthy (trim (url c))) then []
      else [validateURL (trim (url c)) now]
  | _ => []
  end.

(** All results of a run, the oldest first. *)
Fixpoint results (events : list Event) (c : State) : list Result :=
  match events with
  | [] => []
  | e :: events' => scanned c e ++ results events' (step c e)
  end.

End Simple.

(** Simulated measurements used to run the scanner: one with the
    Security Headers coin on pass, one with it on warning. *)
Definition headersPass : Simulated :=
  {| headersDraw := 1 # 2; responseDraw := 417; redirectsDraw := 1 |}.

Definition headersWarn : Simulated :=
  {| headersDraw := 1 # 10; responseDraw := 30; redirectsDraw := 2 |}.

(** ** What one scan computes

    The outcome of the six rules that can cost points, and the score and
    the checks they lead to. *)

Record Findings : Type := {
  isHttps : bool;
  domainSuspicious : bool;
  tooLong : bool;
  phishing : bool;
  dangerousFile : bool;
  headers : bool
}.

Definition findings (u : URL.t) (inputUrl : string) (sim : Simulated)
  : Findings :=
  {| isHttps := (URL.protocol u =? "https:")%string;
     domainSuspicious := isDomainSuspicious (URL.hostname u);
     tooLong := Z.of_nat (String.length inputUrl) >? 200;
     phishing := hasPhishingPattern inputUrl;
     dangerousFile := hasMaliciousExt inputUrl;
     headers := hasSecurityHeaders sim |}.

Definition penalty (applies : bool) (points : Z) : Z :=
  if applies then points else 0.

Definition rawScore (f : Findings) : Z :=
  100 - penalty (negb (isHttps f)) 30 - penalty (domainSuspicious f) 20
      - penalty (tooLong f) 10 - penalty (phishing f) 25
      - penalty (dangerousFile f) 35 - penalty (negb (headers f)) 15.

Definition checkNames : list string :=
  ["HTTPS Protocol"; "Domain Reputation"; "URL Length";
   "Phishing Indicators"; "File Type Safety"; "SSL Certificate";
   "Security Headers"].

(** The seven rules in the order of the [try] block, and the locals they
    leave when run from the entry state of the scan. *)
Definition rules (u : URL.t) (inputUrl : string) (sim : Simulated) : M unit :=
  httpsCheck (URL.protocol u) ;;
  domainReputationCheck (URL.hostname u) ;;
  urlLengthCheck inputUrl ;;
  phishingCheck inputUrl ;;
  fileTypeCheck inputUrl ;;
  sslCheck (URL.protocol u) ;;
  securityHeadersCheck sim.

Definition afterRules (u : URL.t) (inputUrl : string) (sim : Simulated)
  : Locals :=
  snd (rules u inputUrl sim {| checks := []; score := 100 |}).

Definition metadataOf (u : URL.t) (sim : Simulated) : Metadata.t :=
  Metadata.mk (responseDraw sim + 200) (URL.hostname u) (URL.protocol u)
    (if truthy (URL.port u) then Some (parseInt (URL.port u)) else None)
    (redirectsDraw sim).

(** A parsed URL is otherwise clean when the Domain Reputation, URL
    Length and Phishing Indicators rules all pass on it. *)
Definition otherwiseClean (u : URL.t) (inputUrl : string) : Prop :=
  isDomainSuspicious (URL.hostname u) = false /\
  (Z.of_nat (String.length inputUrl) >? 200) = false /\
  hasPhishingPattern inputUrl = false.

(** The Domain Reputation check that is pushed: a warning or a pass. *)
Definition domainReputationEntry (flagged : bool) : SecurityCheck.t :=
  if flagged
  then check "Domain Reputation" warning
         "Domain is a URL shortener or potentially suspicious" medium
  else check "Domain Reputation" pass "Domain appears legitimate" medium.

Ltac unfold_rules :=
  unfold rules, httpsCheck, domainReputationCheck, urlLengthCheck,
    phishingCheck, fileTypeCheck, sslCheck, securityHeadersCheck.

(** Case analysis on the outcome of the six tests of a scan. *)
Ltac split_findings u inputUrl sim :=
  generalize (hasSecurityHeaders sim), (hasMaliciousExt inputUrl),
    (hasPhishingPattern inputUrl),
    (Z.of_nat (String.length inputUrl) >? 200),
    (isDomainSuspicious (URL.hostname u)),
    ((URL.protocol u =? "https:")%string);
  intros [] [] [] [] [] [].

(** ** Notions used to state the properties of the components *)

(** A string made of white space only; the empty string is one. *)
Definition isBlank (s : string) : bool := all isWhiteSpace s.

(** An entry of the richer history that a scan of its own URL returned,
    the URL being trimmed and not empty. *)
Definition scannedEntry (new_URL : string -> Completion URL.t)
    (r : ScanResult.t) : Prop :=
  trim (ScanResult.url r) = ScanResult.url r /\
  ScanResult.url r <> "" /\
  exists sim now,
    performComprehensiveScan new_URL (ScanResult.url r) sim now = Return r.

(** An entry of the simpler history: what [validateURL] gives on its own
    URL, the URL being trimmed and not empty. *)
Definition validatedEntry (r : Simple.Result) : Prop :=
  trim (Simple.resultUrl r) = Simple.resultUrl r /\
  Simple.resultUrl r <> "" /\
  r = Simple.validateURL (Simple.resultUrl r) (Simple.timestamp r).

(** A string that does not begin with white space. *)
Definition startsClean (s : string) : Prop :=
  match s with
  | EmptyString => True
  | String c _ => isWhiteSpace c = false
  end.

(** The number of [true] among some tests. *)
Definition countTrue (tests : list bool) : nat :=
  length (filter (fun b => b) tests).

(** ** The primitives on sample inputs *)

Example trim_sample : trim "  https://a.b/c d  " = "https://a.b/c d".
Proof. reflexivity. Qed.

Example toLowerCase_sample :
  toLowerCase "HTTPS://Site.COM/Setup.EXE?x=[1]" =
  "https://site.com/setup.exe?x=[1]".
Proof. reflexivity. Qed.

Example includes_samples :
  includes "x.bat.com" "t.co" = true /\ includes "bitly.com" "bit.ly" = false /\
  includes "abc" "" = true /\ includes "" "a" = false.
Proof. repeat split. Qed.

Example parseInt_samples :
  parseInt "8080" = Num 8080 /\ parseInt "" = NaN.
Proof. split; reflexivity. Qed.

Example hasSecurityHeaders_samples :
  hasSecurityHeaders headersPass = true /\
  hasSecurityHeaders headersWarn = false.
Proof. split; reflexivity. Qed.

Example basicURL_samples :
  basicURL "https://example.com" =
    Return (URL.mk "example.com" "https:" "") /\
  basicURL "HTTP://Bit.ly:8080/abc?x#y" =
    Return (URL.mk "bit.ly" "http:" "8080") /\
  basicURL "https://example.com:443/" =
    Return (URL.mk "example.com" "https:" "") /\
  basicURL "http://192.168.1.1/admin" =
    Return (URL.mk "192.168.1.1" "http:" "") /\
  basicURL "not a url" = Throw TypeError /\
  basicURL "http://" = Throw TypeError /\
  basicURL "https://example.com:99999" = Throw TypeError.
Proof. repeat split. Qed.

Example validateURL_samples :
  Simple.status (Simple.validateURL "https://example.com" 0) = safe /\
  Simple.status (Simple.validateURL "http://example.com" 0) = suspicious /\
  Simple.status (Simple.validateURL "https://10.0.0.1/x" 0) = suspicious /\
  Simple.status (Simple.validateURL "not a url" 0) = unsafe.
Proof. repeat split. Qed.

(** ** Strings: facts about [startsWith], [includes] and [toLowerCase] *)

Lemma startsWith_app (p s : string) : startsWith (p ++ s) p = true.
Proof.
  induction p as [|c p IH]; simpl.
  - destruct s; reflexivity.
  - rewrite Ascii.eqb_refl. exact IH.
Qed.

Lemma includes_startsWith (s p : string) :
  startsWith s p = true -> includes s p = true.
Proof.
  intros H. destruct s; cbn [includes]; rewrite H; reflexivity.
Qed.

Lemma includes_app (a p b : string) : includes (a ++ p ++ b) p = true.
Proof.
  induction a as [|c a IH].
  - change ("" ++ p ++ b) with (p ++ b).
    apply includes_startsWith, startsWith_app.
  - cbn [append includes]. rewrite IH. apply orb_true_r.
Qed.

Lemma toLowerCase_app (a b : string) :
  toLowerCase (a ++ b) = toLowerCase a ++ toLowerCase b.
Proof.
  induction a as [|c a IH]; simpl; [reflexivity | now rewrite IH].
Qed.

Lemma some_true {A : Type} (p : A -> bool) (l : list A) (x : A) :
  In x l -> p x = true -> some p l = true.
Proof.
  intros Hin Hp. apply existsb_exists. exists x. split; assumption.
Qed.

Lemma some_false {A : Type} (p : A -> bool) (l : list A) :
  some p l = false <-> forall x, In x l -> p x = false.
Proof.
  unfold some. induction l as [|y l IH]; simpl.
  - split; [intros _ x [] | reflexivity].
  - rewrite orb_false_iff, IH. split.
    + intros [Hy Hl] x [<- | Hx]; auto.
    + intros H. split; [apply H; now left | intros x Hx; apply H; now right].
Qed.

Lemma bind_lift_Return {A B : Type} (a : A) (k : A -> M B) :
  bind (lift (Return a)) k = k a.
Proof. reflexivity. Qed.

Lemma rules_return (u : URL.t) (inputUrl : string) (sim : Simulated)
    (st : Locals) :
  fst (rules u inputUrl sim st) = Return tt.
Proof.
  unfold_rules. split_findings u inputUrl sim; reflexivity.
Qed.

Lemma rules_run (u : URL.t) (inputUrl : string) (sim : Simulated) :
  rules u inputUrl sim {| checks := []; score := 100 |} =
  (Return tt, afterRules u inputUrl sim).
Proof.
  unfold afterRules.
  rewrite <- (rules_return u inputUrl sim {| checks := []; score := 100 |}).
  apply surjective_pairing.
Qed.

Lemma afterRules_score (u : URL.t) (inputUrl : string) (sim : Simulated) :
  score (afterRules u inputUrl sim) = rawScore (findings u inputUrl sim).
Proof.
  unfold afterRules, rawScore, findings, penalty. unfold_rules.
  split_findings u inputUrl sim; reflexivity.
Qed.

Lemma afterRules_names (u : URL.t) (inputUrl : string) (sim : Simulated) :
  map SecurityCheck.name (checks (afterRules u inputUrl sim)) = checkNames.
Proof.
  unfold afterRules. unfold_rules.
  split_findings u inputUrl sim; reflexivity.
Qed.

Section ScannerFacts.

Variable new_URL : string -> Completion URL.t.

Lemma tryBlock_parsed (inputUrl : string) (u : URL.t) (sim : Simulated) :
  new_URL inputUrl = Return u ->
  tryBlock new_URL inputUrl sim = rules u inputUrl sim.
Proof.
  intros Hu. unfold tryBlock. rewrite Hu. reflexivity.
Qed.

(** On a string that parses, the scan returns, and what it returns is
    read off the locals the rules leave behind. *)
Lemma scan_parsed (inputUrl : string) (u : URL.t) (sim : Simulated) (now : Z) :
  new_URL inputUrl = Return u ->
  performComprehensiveScan new_URL inputUrl sim now =
  Return (ScanResult.mk inputUrl
            (overallStatus (score (afterRules u inputUrl sim)))
            (Z.max 0 (score (afterRules u inputUrl sim)))
            (checks (afterRules u inputUrl sim))
            (metadataOf u sim) now).
Proof.
  intros Hu.
  unfold performComprehensiveScan, scanBody.
  rewrite (tryBlock_parsed _ _ _ Hu).
  unfold bind at 1. unfold tryCatch. rewrite rules_run.
  unfold metadataLiteral, metadataOf. rewrite Hu, !bind_lift_Return.
  destruct (truthy (URL.port u)); reflexivity.
Qed.

(** On a string that does not parse, the [catch] block leaves the one
    failing check and the score 0, and the [return] statement throws. *)
Lemma scan_unparsed (inputUrl : string) (e : Error) (sim : Simulated) (now : Z) :
  new_URL inputUrl = Throw e ->
  tryCatch (tryBlock new_URL inputUrl sim) catchBlock
    {| checks := []; score := 100 |} =
  (Return tt,
   {| checks := [check "URL Format" fail "Invalid URL format" high];
      score := 0 |}) /\
  performComprehensiveScan new_URL inputUrl sim now = Throw e.
Proof.
  intros He.
  unfold performComprehensiveScan, scanBody, tryBlock, metadataLiteral.
  rewrite He. split; reflexivity.
Qed.

End ScannerFacts.

(** ** Scores and verdicts *)

Lemma rawScore_bounds (f : Findings) : -35 <= rawScore f <= 100.
Proof.
  destruct f as [[] [] [] [] [] []]; vm_compute; split; discriminate.
Qed.

Lemma overallStatus_spec (raw : Z) :
  (overallStatus raw = safe <-> 80 <= Z.max 0 raw) /\
  (overallStatus raw = suspicious <-> 50 <= Z.max 0 raw < 80) /\
  (overallStatus raw = unsafe <-> Z.max 0 raw < 50).
Proof.
  unfold overallStatus. rewrite !Z.geb_leb.
  destruct (Z.leb_spec 80 raw); [|destruct (Z.leb_spec 50 raw)];
    repeat split; intros; try discriminate; try reflexivity; lia.
Qed.

Lemma isDomainSuspicious_false (domain : string) :
  (forall d, In d ["bit.ly"; "tinyurl.com"; "t.co"; "goo.gl"; "localhost";
                   "127.0.0.1"; "192.168."; "10."; "172."] ->
             includes domain d = false) ->
  isDomainSuspicious domain = false.
Proof.
  intros H. apply some_false. intros d Hd. apply H.
  unfold suspiciousDomains in Hd. simpl in Hd |- *. intuition.
Qed.

Lemma hasMaliciousExt_inserted (a ext b : string) :
  In (toLowerCase ext) maliciousExtensions ->
  hasMaliciousExt (a ++ ext ++ b) = true.
Proof.
  intros Hext. unfold hasMaliciousExt.
  apply some_true with (x := toLowerCase ext); [exact Hext|].
  rewrite !toLowerCase_app. apply includes_app.
Qed.

(** ** The history as a bounded, most-recent-first log *)

Lemma firstn_behind_cut {A : Type} (n k : nat) (l h : list A) (r : A) :
  (n <= k)%nat ->
  firstn (S n) (l ++ r :: firstn k h) = firstn (S n) (l ++ r :: h).
Proof.
  revert n k. induction l as [|x l IH]; intros n k Hnk.
  - cbn [app firstn]. rewrite firstn_firstn, Nat.min_l by exact Hnk.
    reflexivity.
  - destruct n as [|m]; [reflexivity|].
    change (x :: firstn (S m) (l ++ r :: firstn k h) =
            x :: firstn (S m) (l ++ r :: h)).
    rewrite IH by lia. reflexivity.
Qed.

Lemma recordAll_firstn {A : Type} (n : nat) (rs history : list A) :
  (length history <= S n)%nat ->
  recordAll n rs history = firstn (S n) (rev rs ++ history).
Proof.
  unfold recordAll. revert history.
  induction rs as [|r rs IH]; intros history Hlen.
  - cbn [fold_left rev app]. now rewrite firstn_all2.
  - cbn [fold_left rev]. rewrite IH.
    + unfold historyUpdater, slice0. rewrite <- app_assoc. cbn [app].
      apply firstn_behind_cut. lia.
    + unfold historyUpdater, slice0. cbn [length].
      pose proof (firstn_le_length n history). lia.
Qed.

Lemma recordAll_app {A : Type} (n : nat) (rs rs' history : list A) :
  recordAll n (rs ++ rs') history = recordAll n rs' (recordAll n rs history).
Proof. unfold recordAll. apply fold_left_app. Qed.

Lemma rich_scanned_history (new_URL : string -> Completion URL.t)
    (c : Rich.State) (e : Rich.Event) :
  Rich.scanHistory (Rich.step new_URL c e) =
  recordAll 19 (Rich.scanned new_URL c e) (Rich.scanHistory c).
Proof.
  destruct e as [value|sim now|[] pick| |historyUrl]; try reflexivity.
  - unfold Rich.step, Rich.handleScan, Rich.scanned.
    destruct (negb (truthy (trim (Rich.url c)))); [reflexivity|].
    destruct (performComprehensiveScan new_URL (trim (Rich.url c)) sim now);
      reflexivity.
  - unfold Rich.step, Rich.exportResults.
    destruct (Rich.scanResult c); reflexivity.
Qed.

Lemma rich_history_log (new_URL : string -> Completion URL.t)
    (events : list Rich.Event) (c : Rich.State) :
  Rich.scanHistory (Rich.run new_URL events c) =
  recordAll 19 (Rich.results new_URL events c) (Rich.scanHistory c).
Proof.
  unfold Rich.run. revert c.
  induction events as [|e events IH]; intros c; [reflexivity|].
  cbn [fold_left Rich.results]. rewrite IH, rich_scanned_history.
  symmetry. apply recordAll_app.
Qed.

Lemma simple_scanned_history (c : Simple.State) (e : Simple.Event) :
  Simple.scanHistory (Simple.step c e) =
  recordAll 9 (Simple.scanned c e) (Simple.scanHistory c).
Proof.
  destruct e as [value|now|[]]; try reflexivity.
  unfold Simple.step, Simple.handleScan, Simple.scanned.
  destruct (negb (truthy (trim (Simple.url c)))); reflexivity.
Qed.

Lemma simple_history_log (events : list Simple.Event) (c : Simple.State) :
  Simple.scanHistory (Simple.run events c) =
  recordAll 9 (Simple.results events c) (Simple.scanHistory c).
Proof.
  unfold Simple.run. revert c.
  induction events as [|e events IH]; intros c; [reflexivity|].
  cbn [fold_left Simple.results]. rewrite IH, simple_scanned_history.
  symmetry. apply recordAll_app.
Qed.

Lemma firstn_rev_evicts {A : Type} (k : nat) (oldest : A) (rs : list A) :
  length rs = k -> firstn k (rev (oldest :: rs) ++ []) = rev rs.
Proof.
  intros Hlen. rewrite app_nil_r. cbn [rev].
  rewrite firstn_app, length_rev, Hlen, Nat.sub_diag. cbn [firstn].
  rewrite app_nil_r. apply firstn_all2. rewrite length_rev. lia.
Qed.

(** ** Properties of the scanner *)

(** C1. The scan of a string that is no URL does not return a result: the
    [catch] block records the failure, but the [return] statement parses
    the string again outside the [try], and the [TypeError] reaches the
    caller. Shown on ["not a url"]. *)
Theorem scan_throws_on_malformed_url (sim : Simulated) (now : Z) :
  basicURL "not a url" = Throw TypeError /\
  performComprehensiveScan basicURL "not a url" sim now = Throw TypeError.
Proof.
  split; [reflexivity|].
  apply (scan_unparsed basicURL "not a url" TypeError sim now). reflexivity.
Qed.

(** C2. On a string that does not parse, the scanner prepares the result
    the specification describes, one failing high-impact URL Format check,
    score 0 and status unsafe, and then loses it: no result is returned.
    Shown on ["www.example.com/login"]. *)
Theorem malformed_url_result_is_lost (sim : Simulated) (now : Z) :
  let inputUrl := "www.example.com/login" in
  let prepared :=
    snd (tryCatch (tryBlock basicURL inputUrl sim) catchBlock
           {| checks := []; score := 100 |}) in
  checks prepared = [check "URL Format" fail "Invalid URL format" high] /\
  score prepared = 0 /\
  overallStatus (score prepared) = unsafe /\
  forall r, performComprehensiveScan basicURL inputUrl sim now <> Return r.
Proof.
  intros inputUrl prepared.
  assert (He : basicURL inputUrl = Throw TypeError) by reflexivity.
  destruct (scan_unparsed basicURL inputUrl TypeError sim now He) as [Hc Hs].
  subst prepared. rewrite Hc, Hs. repeat split; try reflexivity.
  intros r; discriminate.
Qed.

(** C3, as stated, fails: the host [10.0.0.1] contains the substring
    [10.], and the Domain Reputation rule passes it without subtracting
    anything. *)
Lemma private_range_host_passes :
  exists r,
    basicURL "http://10.0.0.1/" = Return (URL.mk "10.0.0.1" "http:" "") /\
    includes "10.0.0.1" "10." = true /\
    performComprehensiveScan basicURL "http://10.0.0.1/" headersPass 0
      = Return r /\
    nth_error (ScanResult.checks r) 1 =
      Some (check "Domain Reputation" pass "Domain appears legitimate" medium) /\
    ScanResult.score r = 70 /\
    domainReputationCheck "10.0.0.1" {| checks := []; score := 70 |} =
      (Return tt,
       {| checks := [check "Domain Reputation" pass
                       "Domain appears legitimate" medium];
          score := 70 |}).
Proof. eexists. repeat split; vm_compute; reflexivity. Qed.

(** C3, amended. For every input that parses as a URL, the Domain
    Reputation rule pushes a warning and subtracts exactly 20 when the
    host contains one of bit.ly, tinyurl.com, t.co, goo.gl, localhost and
    127.0.0.1, and pushes a pass and subtracts nothing otherwise; the
    check is the second one of the result. *)
Theorem domain_reputation_rule
    (new_URL : string -> Completion URL.t) (inputUrl : string) (u : URL.t)
    (sim : Simulated) (now : Z) (st : Locals) :
  new_URL inputUrl = Return u ->
  let flagged :=
    existsb (includes (URL.hostname u))
      ["bit.ly"; "tinyurl.com"; "t.co"; "goo.gl"; "localhost"; "127.0.0.1"] in
  domainReputationCheck (URL.hostname u) st =
    (Return tt,
     {| checks := checks st ++ [domainReputationEntry flagged];
        score := score st - (if flagged then 20 else 0) |}) /\
  SecurityCheck.status (domainReputationEntry flagged) =
    (if flagged then warning else pass) /\
  exists r,
    performComprehensiveScan new_URL inputUrl sim now = Return r /\
    nth_error (ScanResult.checks r) 1 = Some (domainReputationEntry flagged).
Proof.
  intros Hu flagged.
  assert (Hf : isDomainSuspicious (URL.hostname u) = flagged) by reflexivity.
  split; [|split].
  - unfold domainReputationCheck. rewrite Hf.
    destruct flagged; cbv [bind push subtract]; cbn [checks score];
      [reflexivity|]. now rewrite Z.sub_0_r.
  - destruct flagged; reflexivity.
  - eexists. split; [apply (scan_parsed new_URL _ _ _ _ Hu)|].
    cbn [ScanResult.checks]. unfold afterRules. unfold_rules. rewrite Hf.
    clear Hf. generalize flagged as b. clear flagged. intros b.
    split_findings u inputUrl sim; destruct b; reflexivity.
Qed.

Lemma domain_reputation_rule_witness :
  exists r,
    performComprehensiveScan basicURL "http://bit.ly/abc" headersPass 0
      = Return r /\
    nth_error (ScanResult.checks r) 1 = Some (domainReputationEntry true).
Proof.
  exact (proj2 (proj2 (domain_reputation_rule basicURL "http://bit.ly/abc"
                         (URL.mk "bit.ly" "http:" "") headersPass 0
                         {| checks := []; score := 100 |} eq_refl))).
Defined.

(** C4. Whenever the scan returns a result, its score lies between 0 and
    100, and its status is safe exactly when the score is at least 80,
    suspicious exactly when the score is at least 50 and below 80, and
    unsafe exactly when the score is below 50. *)
Theorem score_clamped_status_from_score
    (new_URL : string -> Completion URL.t) (inputUrl : string)
    (sim : Simulated) (now : Z) (r : ScanResult.t) :
  performComprehensiveScan new_URL inputUrl sim now = Return r ->
  0 <= ScanResult.score r <= 100 /\
  (ScanResult.status r = safe <-> 80 <= ScanResult.score r) /\
  (ScanResult.status r = suspicious <->
     50 <= ScanResult.score r < 80) /\
  (ScanResult.status r = unsafe <-> ScanResult.score r < 50).
Proof.
  intros Hr. destruct (new_URL inputUrl) as [u|e] eqn:Hu.
  - rewrite (scan_parsed new_URL _ _ sim now Hu) in Hr.
    injection Hr as <-. cbn [ScanResult.score ScanResult.status].
    split; [|apply overallStatus_spec].
    rewrite afterRules_score.
    pose proof (rawScore_bounds (findings u inputUrl sim)). lia.
  - destruct (scan_unparsed new_URL _ _ sim now Hu) as [_ Ht].
    rewrite Ht in Hr. discriminate.
Qed.

Lemma score_clamped_status_from_score_witness :
  exists r,
    performComprehensiveScan basicURL "http://bit.ly/abc" headersPass 0
      = Return r /\
    0 <= ScanResult.score r <= 100 /\
    (ScanResult.status r = safe <-> 80 <= ScanResult.score r) /\
    (ScanResult.status r = suspicious <->
       50 <= ScanResult.score r < 80) /\
    (ScanResult.status r = unsafe <-> ScanResult.score r < 50).
Proof.
  eexists. split; [reflexivity|].
  apply (score_clamped_status_from_score basicURL "http://bit.ly/abc"
           headersPass 0).
  reflexivity.
Defined.

(** C5. A parsed https URL whose host contains none of the denylist
    substrings, which has at most 200 code units, no phishing keyword and
    no dangerous extension, scores at least 80; when the Security Headers
    rule passes it scores exactly 100 and is safe. In particular
    ["https://example.com"] scores 100 and is safe when that rule passes. *)
Theorem clean_https_url_is_safe :
  (forall (new_URL : string -> Completion URL.t) (inputUrl : string)
          (u : URL.t) (sim : Simulated) (now : Z),
     new_URL inputUrl = Return u ->
     URL.protocol u = "https:" ->
     (forall d, In d ["bit.ly"; "tinyurl.com"; "t.co"; "goo.gl";
                      "localhost"; "127.0.0.1"; "192.168."; "10."; "172."] ->
                includes (URL.hostname u) d = false) ->
     (String.length inputUrl <= 200)%nat ->
     hasPhishingPattern inputUrl = false ->
     hasMaliciousExt inputUrl = false ->
     exists r,
       performComprehensiveScan new_URL inputUrl sim now = Return r /\
       80 <= ScanResult.score r /\
       (hasSecurityHeaders sim = true ->
        ScanResult.score r = 100 /\ ScanResult.status r = safe)) /\
  (forall (sim : Simulated) (now : Z),
     hasSecurityHeaders sim = true ->
     exists r,
       performComprehensiveScan basicURL "https://example.com" sim now
         = Return r /\
       ScanResult.score r = 100 /\ ScanResult.status r = safe).
Proof.
  assert (General : forall new_URL inputUrl u sim now,
    new_URL inputUrl = Return u ->
    URL.protocol u = "https:" ->
    (forall d, In d ["bit.ly"; "tinyurl.com"; "t.co"; "goo.gl";
                     "localhost"; "127.0.0.1"; "192.168."; "10."; "172."] ->
               includes (URL.hostname u) d = false) ->
    (String.length inputUrl <= 200)%nat ->
    hasPhishingPattern inputUrl = false ->
    hasMaliciousExt inputUrl = false ->
    exists r,
      performComprehensiveScan new_URL inputUrl sim now = Return r /\
      80 <= ScanResult.score r /\
      (hasSecurityHeaders sim = true ->
       ScanResult.score r = 100 /\ ScanResult.status r = safe)).
  { intros new_URL inputUrl u sim now Hu Hproto Hhost Hlen Hphish Hext.
    eexists. split; [apply (scan_parsed new_URL _ _ _ _ Hu)|].
    cbn [ScanResult.score ScanResult.status].
    rewrite afterRules_score. unfold rawScore, findings.
    cbn [isHttps domainSuspicious tooLong phishing dangerousFile headers].
    rewrite Hproto, (isDomainSuspicious_false _ Hhost), Hphish, Hext.
    assert (Hl : (Z.of_nat (String.length inputUrl) >? 200) = false).
    { rewrite Z.gtb_ltb. apply Z.ltb_ge. lia. }
    rewrite Hl.
    destruct (hasSecurityHeaders sim); vm_compute; repeat split;
      discriminate. }
  split; [exact General|].
  intros sim now Hcoin.
  destruct (General basicURL "https://example.com"
              (URL.mk "example.com" "https:" "") sim now)
    as (r & Hr & _ & Hsafe); try reflexivity.
  - intros d Hd. cbn in Hd.
    repeat (destruct Hd as [<- | Hd]; [reflexivity|]). destruct Hd.
  - cbn. lia.
  - exists r. split; [exact Hr | exact (Hsafe Hcoin)].
Qed.

Lemma clean_https_url_is_safe_witness :
  exists r,
    performComprehensiveScan basicURL "https://github.com/rocq-prover"
      headersPass 0 = Return r /\
    80 <= ScanResult.score r /\
    (hasSecurityHeaders headersPass = true ->
     ScanResult.score r = 100 /\ ScanResult.status r = safe).
Proof.
  apply (proj1 clean_https_url_is_safe basicURL
           "https://github.com/rocq-prover"
           (URL.mk "github.com" "https:" "") headersPass 0);
    try reflexivity.
  - intros d Hd. cbn in Hd.
    repeat (destruct Hd as [<- | Hd]; [reflexivity|]). destruct Hd.
  - cbn. lia.
Defined.

(** C6, as stated, fails: with the Security Headers rule on pass,
    ["http://bit.ly/abc"] scores 50, and a score of 50 is suspicious, not
    unsafe. *)
Lemma bitly_is_not_unsafe :
  exists r,
    hasSecurityHeaders headersPass = true /\
    performComprehensiveScan basicURL "http://bit.ly/abc" headersPass 0
      = Return r /\
    ScanResult.score r = 50 /\
    ScanResult.status r = suspicious /\
    ScanResult.status r <> unsafe.
Proof.
  eexists. repeat split; try (vm_compute; reflexivity). discriminate.
Qed.

(** C6, amended. With the Security Headers rule on pass,
    ["http://bit.ly/abc"] yields score 50, the HTTPS failure subtracting
    30 and the Domain Reputation warning subtracting 20, and status
    suspicious. *)
Theorem bitly_scores_50_suspicious
    (new_URL : string -> Completion URL.t) (u : URL.t)
    (sim : Simulated) (now : Z) :
  new_URL "http://bit.ly/abc" = Return u ->
  URL.hostname u = "bit.ly" ->
  URL.protocol u = "http:" ->
  hasSecurityHeaders sim = true ->
  exists r,
    performComprehensiveScan new_URL "http://bit.ly/abc" sim now = Return r /\
    ScanResult.score r = 100 - 30 - 20 /\
    ScanResult.status r = suspicious /\
    map (fun c => (SecurityCheck.name c, SecurityCheck.status c))
      (ScanResult.checks r) =
    [("HTTPS Protocol", fail); ("Domain Reputation", warning);
     ("URL Length", pass); ("Phishing Indicators", pass);
     ("File Type Safety", pass); ("SSL Certificate", fail);
     ("Security Headers", pass)].
Proof.
  intros Hu Hhost Hproto Hcoin.
  eexists. split; [apply (scan_parsed new_URL _ _ _ _ Hu)|].
  cbn [ScanResult.score ScanResult.status ScanResult.checks].
  unfold afterRules. unfold_rules. rewrite Hhost, Hproto, Hcoin.
  repeat split; vm_compute; reflexivity.
Qed.

Lemma bitly_scores_50_suspicious_witness :
  exists r,
    performComprehensiveScan basicURL "http://bit.ly/abc" headersPass 1700000000000
      = Return r /\
    ScanResult.score r = 100 - 30 - 20 /\
    ScanResult.status r = suspicious /\
    map (fun c => (SecurityCheck.name c, SecurityCheck.status c))
      (ScanResult.checks r) =
    [("HTTPS Protocol", fail); ("Domain Reputation", warning);
     ("URL Length", pass); ("Phishing Indicators", pass);
     ("File Type Safety", pass); ("SSL Certificate", fail);
     ("Security Headers", pass)].
Proof.
  apply (bitly_scores_50_suspicious basicURL (URL.mk "bit.ly" "http:" ""));
    reflexivity.
Defined.

(** C7, as stated, fails: a dangerous extension added to a clean URL can
    cost more than 35 points, or stop the scan. [https://x.com] is clean
    and scores 100; with [.bat] put in front of [.com] the host contains
    [t.co], the Domain Reputation rule warns as well, and the score is 45.
    [https://x.com:8080/] is clean too; with [.exe] put inside the port
    the string is no URL any more and the scan throws. *)
Lemma inserted_extension_can_cost_55 :
  In (toLowerCase ".bat") [".exe"; ".scr"; ".bat"; ".cmd"; ".pif"] /\
  basicURL ("https://x" ++ ".com") = Return (URL.mk "x.com" "https:" "") /\
  otherwiseClean (URL.mk "x.com" "https:" "") ("https://x" ++ ".com") /\
  hasMaliciousExt ("https://x" ++ ".com") = false /\
  (exists r r',
     performComprehensiveScan basicURL ("https://x" ++ ".com") headersPass 0
       = Return r /\
     performComprehensiveScan basicURL ("https://x" ++ ".bat" ++ ".com")
       headersPass 0 = Return r' /\
     ScanResult.score r = 100 /\
     ScanResult.score r' = 45 /\
     ScanResult.score r' <> ScanResult.score r - 35) /\
  basicURL ("https://x.com:80" ++ "80/")
    = Return (URL.mk "x.com" "https:" "8080") /\
  otherwiseClean (URL.mk "x.com" "https:" "8080") ("https://x.com:80" ++ "80/") /\
  hasMaliciousExt ("https://x.com:80" ++ "80/") = false /\
  performComprehensiveScan basicURL ("https://x.com:80" ++ ".exe" ++ "80/")
    headersPass 0 = Throw TypeError.
Proof.
  split; [cbn; auto|]. split; [reflexivity|].
  split; [repeat split; reflexivity|]. split; [reflexivity|].
  split.
  - do 2 eexists.
    split; [apply (scan_parsed basicURL _ (URL.mk "x.com" "https:" ""));
            reflexivity|].
    split; [apply (scan_parsed basicURL _ (URL.mk "x.bat.com" "https:" ""));
            reflexivity|].
    cbn [ScanResult.score].
    repeat split; try (vm_compute; reflexivity). vm_compute. discriminate.
  - split; [reflexivity|]. split; [repeat split; reflexivity|].
    split; [reflexivity|].
    apply (scan_unparsed basicURL _ TypeError headersPass 0). reflexivity.
Qed.

(** C7, amended. Take a parsed URL without dangerous extension on which
    the Domain Reputation, URL Length and Phishing Indicators rules pass.
    Insert one of .exe, .scr, .bat, .cmd, .pif, in any mix of cases,
    anywhere in it; if the outcome still parses with the same protocol and
    those three rules still pass on it, then, the Security Headers rule
    taking the same value in both scans, its score is lower by exactly
    35. *)
Theorem dangerous_extension_costs_35
    (new_URL : string -> Completion URL.t) (a ext b : string)
    (u u' : URL.t) (sim sim' : Simulated) (now now' : Z) :
  In (toLowerCase ext) [".exe"; ".scr"; ".bat"; ".cmd"; ".pif"] ->
  new_URL (a ++ b) = Return u ->
  new_URL (a ++ ext ++ b) = Return u' ->
  URL.protocol u' = URL.protocol u ->
  otherwiseClean u (a ++ b) ->
  otherwiseClean u' (a ++ ext ++ b) ->
  hasMaliciousExt (a ++ b) = false ->
  hasSecurityHeaders sim = hasSecurityHeaders sim' ->
  exists r r',
    performComprehensiveScan new_URL (a ++ b) sim now = Return r /\
    performComprehensiveScan new_URL (a ++ ext ++ b) sim' now' = Return r' /\
    ScanResult.score r' = ScanResult.score r - 35 /\
    ScanResult.score r' < ScanResult.score r.
Proof.
  intros Hext Hu Hu' Hproto (Hd & Hl & Hp) (Hd' & Hl' & Hp') Hclean Hcoin.
  pose proof (hasMaliciousExt_inserted a ext b Hext) as Hdirty.
  exists (ScanResult.mk (a ++ b)
            (overallStatus (score (afterRules u (a ++ b) sim)))
            (Z.max 0 (score (afterRules u (a ++ b) sim)))
            (checks (afterRules u (a ++ b) sim)) (metadataOf u sim) now).
  eexists. split; [apply (scan_parsed new_URL _ _ _ _ Hu)|].
  split; [apply (scan_parsed new_URL _ _ _ _ Hu')|].
  cbn [ScanResult.score]. rewrite !afterRules_score.
  unfold rawScore, findings.
  cbn [isHttps domainSuspicious tooLong phishing dangerousFile headers].
  rewrite Hproto, Hd, Hd', Hl, Hl', Hp, Hp', Hclean, Hdirty, Hcoin.
  destruct (URL.protocol u =? "https:")%string, (hasSecurityHeaders sim');
    vm_compute; split; reflexivity.
Qed.

Lemma dangerous_extension_costs_35_witness :
  exists r r',
    performComprehensiveScan basicURL "https://site.com/malware"
      headersPass 1 = Return r /\
    performComprehensiveScan basicURL "https://site.com/malware.EXE"
      headersPass 2 = Return r' /\
    ScanResult.score r' = ScanResult.score r - 35 /\
    ScanResult.score r' < ScanResult.score r.
Proof.
  apply (dangerous_extension_costs_35 basicURL
           "https://site.com/malware" ".EXE" ""
           (URL.mk "site.com" "https:" "") (URL.mk "site.com" "https:" ""));
    try reflexivity.
  - cbn. auto.
  - repeat split; reflexivity.
  - repeat split; reflexivity.
Defined.

Lemma afterRules_coin (u : URL.t) (inputUrl : string) (sim sim' : Simulated) :
  hasSecurityHeaders sim = hasSecurityHeaders sim' ->
  afterRules u inputUrl sim = afterRules u inputUrl sim'.
Proof.
  intros Hcoin. unfold afterRules, rules, securityHeadersCheck.
  rewrite Hcoin. reflexivity.
Qed.

(** C9. Two scans of the same string in which the Security Headers coin
    takes the same value end alike: both throw, or both return, with the
    same score, the same status and the same checks (so the same name,
    status and impact check by check), whatever response time, redirect
    count and time stamp each of them is given. *)
Theorem scan_determined_by_input_and_coin
    (new_URL : string -> Completion URL.t) (inputUrl : string)
    (sim sim' : Simulated) (now now' : Z) :
  hasSecurityHeaders sim = hasSecurityHeaders sim' ->
  match performComprehensiveScan new_URL inputUrl sim now,
        performComprehensiveScan new_URL inputUrl sim' now' with
  | Return r, Return r' =>
      ScanResult.score r = ScanResult.score r' /\
      ScanResult.status r = ScanResult.status r' /\
      ScanResult.checks r = ScanResult.checks r' /\
      map (fun c => (SecurityCheck.name c, SecurityCheck.status c,
                     SecurityCheck.impact c)) (ScanResult.checks r) =
      map (fun c => (SecurityCheck.name c, SecurityCheck.status c,
                     SecurityCheck.impact c)) (ScanResult.checks r')
  | Throw e, Throw e' => e = e'
  | _, _ => False
  end.
Proof.
  intros Hcoin. destruct (new_URL inputUrl) as [u|e] eqn:Hu.
  - rewrite !(scan_parsed new_URL _ _ _ _ Hu).
    cbn [ScanResult.score ScanResult.status ScanResult.checks].
    rewrite (afterRules_coin u inputUrl sim sim' Hcoin). auto.
  - destruct (scan_unparsed new_URL _ _ sim now Hu) as [_ ->].
    destruct (scan_unparsed new_URL _ _ sim' now' Hu) as [_ ->].
    reflexivity.
Qed.

Lemma scan_determined_by_input_and_coin_witness :
  match performComprehensiveScan basicURL
          "http://192.168.1.1:8080/verify-account" headersWarn 1,
        performComprehensiveScan basicURL
          "http://192.168.1.1:8080/verify-account"
          {| headersDraw := 1 # 4; responseDraw := 999; redirectsDraw := 0 |} 2
  with
  | Return r, Return r' =>
      ScanResult.score r = ScanResult.score r' /\
      ScanResult.status r = ScanResult.status r' /\
      ScanResult.checks r = ScanResult.checks r' /\
      map (fun c => (SecurityCheck.name c, SecurityCheck.status c,
                     SecurityCheck.impact c)) (ScanResult.checks r) =
      map (fun c => (SecurityCheck.name c, SecurityCheck.status c,
                     SecurityCheck.impact c)) (ScanResult.checks r')
  | Throw e, Throw e' => e = e'
  | _, _ => False
  end.
Proof.
  apply (scan_determined_by_input_and_coin basicURL
           "http://192.168.1.1:8080/verify-account"). reflexivity.
Defined.

(** C10. On every string that parses as a URL the scan returns exactly
    seven checks, named HTTPS Protocol, Domain Reputation, URL Length,
    Phishing Indicators, File Type Safety, SSL Certificate and Security
    Headers, in this order. *)
Theorem seven_checks_in_fixed_order
    (new_URL : string -> Completion URL.t) (inputUrl : string) (u : URL.t)
    (sim : Simulated) (now : Z) :
  new_URL inputUrl = Return u ->
  exists r,
    performComprehensiveScan new_URL inputUrl sim now = Return r /\
    length (ScanResult.checks r) = 7%nat /\
    map SecurityCheck.name (ScanResult.checks r) =
    ["HTTPS Protocol"; "Domain Reputation"; "URL Length";
     "Phishing Indicators"; "File Type Safety"; "SSL Certificate";
     "Security Headers"].
Proof.
  intros Hu. eexists. split; [apply (scan_parsed new_URL _ _ _ _ Hu)|].
  cbn [ScanResult.checks].
  pose proof (afterRules_names u inputUrl sim) as Hnames.
  split; [|exact Hnames].
  rewrite <- (length_map SecurityCheck.name), Hnames. reflexivity.
Qed.

Lemma seven_checks_in_fixed_order_witness :
  exists r,
    performComprehensiveScan basicURL
      "http://tinyurl.com/urgent-action/setup.exe" headersWarn 0 = Return r /\
    length (ScanResult.checks r) = 7%nat /\
    map SecurityCheck.name (ScanResult.checks r) =
    ["HTTPS Protocol"; "Domain Reputation"; "URL Length";
     "Phishing Indicators"; "File Type Safety"; "SSL Certificate";
     "Security Headers"].
Proof.
  apply (seven_checks_in_fixed_order basicURL
           "http://tinyurl.com/urgent-action/setup.exe"
           (URL.mk "tinyurl.com" "http:" "")).
  reflexivity.
Defined.

(** C8. In both components the history is the list of the last K results
    handed to it, the newest first and each as it was returned, with K =
    20 in the richer component and K = 10 in the simpler one: it never
    holds more than K entries; a step either leaves it as it is or puts
    the new result at index 0 in front of the first K - 1 old entries;
    and once K + 1 results are in, the oldest is gone. *)
Theorem history_capped_newest_first
    (new_URL : string -> Completion URL.t)
    (events : list Rich.Event) (events' : list Simple.Event) :
  let rich := Rich.scanHistory (Rich.run new_URL events Rich.initial) in
  let richResults := Rich.results new_URL events Rich.initial in
  let simple := Simple.scanHistory (Simple.run events' Simple.initial) in
  let simpleResults := Simple.results events' Simple.initial in
  (rich = firstn 20 (rev richResults) /\ (length rich <= 20)%nat) /\
  (simple = firstn 10 (rev simpleResults) /\ (length simple <= 10)%nat) /\
  (forall c e,
     Rich.scanHistory (Rich.step new_URL c e) =
     match Rich.scanned new_URL c e with
     | [] => Rich.scanHistory c
     | result :: _ => result :: firstn 19 (Rich.scanHistory c)
     end) /\
  (forall c e,
     Simple.scanHistory (Simple.step c e) =
     match Simple.scanned c e with
     | [] => Simple.scanHistory c
     | result :: _ => result :: firstn 9 (Simple.scanHistory c)
     end) /\
  (forall oldest rs,
     richResults = oldest :: rs -> length rs = 20%nat -> rich = rev rs) /\
  (forall oldest rs,
     simpleResults = oldest :: rs -> length rs = 10%nat -> simple = rev rs).
Proof.
  intros rich richResults simple simpleResults.
  assert (Hrich : rich = firstn 20 (rev richResults ++ [])).
  { subst rich richResults. rewrite rich_history_log.
    apply recordAll_firstn. cbn. lia. }
  assert (Hsimple : simple = firstn 10 (rev simpleResults ++ [])).
  { subst simple simpleResults. rewrite simple_history_log.
    apply recordAll_firstn. cbn. lia. }
  repeat split.
  - now rewrite Hrich, app_nil_r.
  - rewrite Hrich. apply firstn_le_length.
  - now rewrite Hsimple, app_nil_r.
  - rewrite Hsimple. apply firstn_le_length.
  - intros c e. rewrite rich_scanned_history.
    destruct e as [value|sim now|isImage pick| |historyUrl];
      try reflexivity.
    unfold Rich.scanned.
    destruct (negb (truthy (trim (Rich.url c)))); [reflexivity|].
    destruct (performComprehensiveScan new_URL (trim (Rich.url c)) sim now);
      reflexivity.
  - intros c e. rewrite simple_scanned_history.
    destruct e as [value|now|isImage]; try reflexivity.
    unfold Simple.scanned.
    destruct (negb (truthy (trim (Simple.url c)))); reflexivity.
  - intros oldest rs Hrs Hlen. rewrite Hrich, Hrs.
    apply firstn_rev_evicts, Hlen.
  - intros oldest rs Hrs Hlen. rewrite Hsimple, Hrs.
    apply firstn_rev_evicts, Hlen.
Qed.

Lemma history_capped_newest_first_witness :
  let events :=
    Rich.Edit " https://example.com " ::
    map (fun t => Rich.Scan headersPass (Z.of_nat t)) (seq 1 21) in
  let events' :=
    Simple.Edit "http://localhost:5173" ::
    map (fun t => Simple.Scan (Z.of_nat t)) (seq 1 11) in
  map ScanResult.timestamp
    (Rich.scanHistory (Rich.run basicURL events Rich.initial)) =
  [21; 20; 19; 18; 17; 16; 15; 14; 13; 12; 11; 10; 9; 8; 7; 6; 5; 4; 3; 2] /\
  map Simple.timestamp
    (Simple.scanHistory (Simple.run events' Simple.initial)) =
  [11; 10; 9; 8; 7; 6; 5; 4; 3; 2].
Proof.
  intros events events'.
  destruct (history_capped_newest_first basicURL events events')
    as (_ & _ & _ & _ & Hrich & Hsimple).
  split.
  - rewrite (Hrich
               (hd (ScanResult.mk "" unsafe 0 [] (Metadata.mk 0 "" "" None 0) 0)
                   (Rich.results basicURL events Rich.initial))
               (tl (Rich.results basicURL events Rich.initial)));
      vm_compute; reflexivity.
  - rewrite (Hsimple
               (hd (Simple.validateURL "" 0)
                   (Simple.results events' Simple.initial))
               (tl (Simple.results events' Simple.initial)));
      vm_compute; reflexivity.
Defined.

(** ** More on strings *)

Lemma startsWith_refl (s : string) : startsWith s s = true.
Proof.
  induction s as [|c s IH]; [reflexivity|].
  cbn [startsWith]. now rewrite Ascii.eqb_refl.
Qed.

Lemma includes_refl (s : string) : includes s s = true.
Proof. apply includes_startsWith, startsWith_refl. Qed.

Lemma includes_empty (s : string) : includes s "" = true.
Proof. apply includes_startsWith. destruct s; reflexivity. Qed.

Lemma lowerUnit_idempotent (c : ascii) : lowerUnit (lowerUnit c) = lowerUnit c.
Proof.
  destruct c as [[] [] [] [] [] [] [] []]; reflexivity.
Qed.

Lemma toLowerCase_idempotent (s : string) :
  toLowerCase (toLowerCase s) = toLowerCase s.
Proof.
  induction s as [|c s IH]; [reflexivity|].
  cbn [toLowerCase]. now rewrite lowerUnit_idempotent, IH.
Qed.

Lemma length_toLowerCase (s : string) :
  String.length (toLowerCase s) = String.length s.
Proof.
  induction s as [|c s IH]; [reflexivity|]. cbn [toLowerCase String.length].
  now rewrite IH.
Qed.

Lemma trimStart_blank (s : string) : isBlank s = true -> trimStart s = "".
Proof.
  unfold isBlank. induction s as [|c s IH]; [reflexivity|].
  cbn [all trimStart]. intros H. apply andb_true_iff in H as [Hc Hs].
  rewrite Hc. exact (IH Hs).
Qed.

Lemma trim_blank (s : string) : isBlank s = true -> trim s = "".
Proof. intros H. unfold trim. now rewrite trimStart_blank. Qed.

Lemma trimStart_clean (s : string) : startsClean (trimStart s).
Proof.
  induction s as [|c s IH]; [exact I|].
  cbn [trimStart]. destruct (isWhiteSpace c) eqn:Hc; [exact IH | exact Hc].
Qed.

Lemma trimStart_id (s : string) : startsClean s -> trimStart s = s.
Proof.
  destruct s as [|c s]; [reflexivity|]. cbn [startsClean trimStart].
  now intros ->.
Qed.

Lemma trimEnd_clean (s : string) : startsClean s -> startsClean (trimEnd s).
Proof.
  destruct s as [|c s]; [intros; exact I|]. cbn [startsClean trimEnd].
  intros Hc. rewrite Hc. destruct (trimEnd s); exact Hc.
Qed.

Lemma trimEnd_idempotent (s : string) : trimEnd (trimEnd s) = trimEnd s.
Proof.
  induction s as [|c s IH]; [reflexivity|]. cbn [trimEnd].
  destruct (trimEnd s) as [|d t] eqn:Ht.
  - destruct (isWhiteSpace c) eqn:Hc; [reflexivity|].
    cbn [trimEnd]. now rewrite Hc.
  - cbn [trimEnd]. cbn [trimEnd] in IH. now rewrite IH.
Qed.

Lemma trim_idempotent (s : string) : trim (trim s) = trim s.
Proof.
  unfold trim.
  rewrite (trimStart_id (trimEnd (trimStart s))).
  - apply trimEnd_idempotent.
  - apply trimEnd_clean, trimStart_clean.
Qed.

Lemma truthy_nonempty (s : string) : truthy s = true <-> s <> "".
Proof. destruct s; cbn; split; congruence. Qed.

(** ** Further properties of the scanner *)


(** The seven checks a scan of a parsed URL returns, rule by rule. *)
Lemma afterRules_checks (u : URL.t) (inputUrl : string) (sim : Simulated) :
  checks (afterRules u inputUrl sim) =
  [ (if (URL.protocol u =? "https:")%string
     then check "HTTPS Protocol" pass "Site uses secure HTTPS connection" high
     else check "HTTPS Protocol" fail
            "Site does not use secure HTTPS connection" high);
    domainReputationEntry (isDomainSuspicious (URL.hostname u));
    (if Z.of_nat (String.length inputUrl) >? 200
     then check "URL Length" warning
            "Unusually long URL detected (potential obfuscation)" low
     else check "URL Length" pass "URL length is within normal range" low);
    (if hasPhishingPattern inputUrl
     then check "Phishing Indicators" fail
            "Contains common phishing keywords" high
     else check "Phishing Indicators" pass
            "No common phishing patterns detected" high);
    (if hasMaliciousExt inputUrl
     then check "File Type Safety" fail
            "URL points to potentially dangerous file type" high
     else check "File Type Safety" pass
            "No dangerous file extensions detected" medium);
    (if (URL.protocol u =? "https:")%string
     then check "SSL Certificate" pass
            "Valid SSL certificate (simulated check)" high
     else check "SSL Certificate" fail "No SSL certificate available" high);
    (if hasSecurityHeaders sim
     then check "Security Headers" pass
            "Essential security headers detected" medium
     else check "Security Headers" warning
            "Missing important security headers (CSP, HSTS)" medium) ].
Proof.
  unfold afterRules. unfold_rules.
  split_findings u inputUrl sim; reflexivity.
Qed.

Lemma afterRules_raw (u : URL.t) (inputUrl : string) (sim : Simulated) :
  score (afterRules u inputUrl sim) =
  100
  - (if (URL.protocol u =? "https:")%string then 0 else 30)
  - (if isDomainSuspicious (URL.hostname u) then 20 else 0)
  - (if Z.of_nat (String.length inputUrl) >? 200 then 10 else 0)
  - (if hasPhishingPattern inputUrl then 25 else 0)
  - (if hasMaliciousExt inputUrl then 35 else 0)
  - (if hasSecurityHeaders sim then 0 else 15).
Proof.
  rewrite afterRules_score. unfold rawScore, findings, penalty.
  cbn [isHttps domainSuspicious tooLong phishing dangerousFile headers].
  destruct (URL.protocol u =? "https:")%string, (hasSecurityHeaders sim);
    reflexivity.
Qed.

(** X1. The score of a scan that parses its input is 100 less the points
    of the rules that found something, 30 for a protocol other than
    https, 20 for a listed host, 10 for more than 200 code units, 25 for a
    phishing keyword, 35 for a dangerous extension and 15 for missing
    security headers, and 0 when that difference is negative. *)
Theorem score_is_100_minus_penalties
    (new_URL : string -> Completion URL.t) (inputUrl : string) (u : URL.t)
    (sim : Simulated) (now : Z) :
  new_URL inputUrl = Return u ->
  exists r,
    performComprehensiveScan new_URL inputUrl sim now = Return r /\
    ScanResult.score r =
    Z.max 0
      (100
       - (if (URL.protocol u =? "https:")%string then 0 else 30)
       - (if isDomainSuspicious (URL.hostname u) then 20 else 0)
       - (if Z.of_nat (String.length inputUrl) >? 200 then 10 else 0)
       - (if hasPhishingPattern inputUrl then 25 else 0)
       - (if hasMaliciousExt inputUrl then 35 else 0)
       - (if hasSecurityHeaders sim then 0 else 15)).
Proof.
  intros Hu. eexists. split; [apply (scan_parsed new_URL _ _ _ _ Hu)|].
  cbn [ScanResult.score]. now rewrite afterRules_raw.
Qed.

Lemma score_is_100_minus_penalties_witness :
  exists r,
    performComprehensiveScan basicURL
      "http://tinyurl.com/verify-account/update.scr" headersWarn 0 = Return r /\
    ScanResult.score r = Z.max 0 (100 - 30 - 20 - 0 - 25 - 35 - 15).
Proof.
  apply (score_is_100_minus_penalties basicURL
           "http://tinyurl.com/verify-account/update.scr"
           (URL.mk "tinyurl.com" "http:" "")).
  reflexivity.
Defined.

(** X2. In every result the SSL Certificate check repeats the verdict of
    the HTTPS Protocol check: both pass when the protocol is https, and
    both fail otherwise. *)
Theorem ssl_check_mirrors_https_check
    (new_URL : string -> Completion URL.t) (inputUrl : string) (u : URL.t)
    (sim : Simulated) (now : Z) :
  new_URL inputUrl = Return u ->
  exists r https ssl,
    performComprehensiveScan new_URL inputUrl sim now = Return r /\
    nth_error (ScanResult.checks r) 0 = Some https /\
    nth_error (ScanResult.checks r) 5 = Some ssl /\
    SecurityCheck.status https = SecurityCheck.status ssl /\
    SecurityCheck.status https =
      (if (URL.protocol u =? "https:")%string then pass else fail).
Proof.
  intros Hu.
  assert (Hchecks : exists https ssl,
    nth_error (checks (afterRules u inputUrl sim)) 0 = Some https /\
    nth_error (checks (afterRules u inputUrl sim)) 5 = Some ssl /\
    SecurityCheck.status https = SecurityCheck.status ssl /\
    SecurityCheck.status https =
      (if (URL.protocol u =? "https:")%string then pass else fail)).
  { rewrite afterRules_checks. cbn [nth_error].
    do 2 eexists. repeat split.
    destruct (URL.protocol u =? "https:")%string; reflexivity.
    destruct (URL.protocol u =? "https:")%string; reflexivity. }
  destruct Hchecks as (https & ssl & H0 & H5 & Hsame & Hhttps).
  eexists. exists https, ssl.
  split; [apply (scan_parsed new_URL _ _ _ _ Hu)|].
  cbn [ScanResult.checks]. auto.
Qed.

Lemma ssl_check_mirrors_https_check_witness :
  exists r https ssl,
    performComprehensiveScan basicURL "http://example.com/" headersPass 0
      = Return r /\
    nth_error (ScanResult.checks r) 0 = Some https /\
    nth_error (ScanResult.checks r) 5 = Some ssl /\
    SecurityCheck.status https = SecurityCheck.status ssl /\
    SecurityCheck.status https = fail.
Proof.
  apply (ssl_check_mirrors_https_check basicURL "http://example.com/"
           (URL.mk "example.com" "http:" "")).
  reflexivity.
Defined.

(** X3. A scan's verdict is safe exactly when the protocol is https, the
    input has neither a phishing keyword nor a dangerous extension, and at
    most one of the three lesser findings applies: listed host, more than
    200 code units, missing security headers. *)
Theorem safe_verdict_characterised
    (new_URL : string -> Completion URL.t) (inputUrl : string) (u : URL.t)
    (sim : Simulated) (now : Z) :
  new_URL inputUrl = Return u ->
  exists r,
    performComprehensiveScan new_URL inputUrl sim now = Return r /\
    (ScanResult.status r = safe <->
     URL.protocol u = "https:" /\
     hasPhishingPattern inputUrl = false /\
     hasMaliciousExt inputUrl = false /\
     (countTrue [isDomainSuspicious (URL.hostname u);
                 Z.of_nat (String.length inputUrl) >? 200;
                 negb (hasSecurityHeaders sim)] <= 1)%nat).
Proof.
  intros Hu. eexists. split; [apply (scan_parsed new_URL _ _ _ _ Hu)|].
  cbn [ScanResult.status]. rewrite afterRules_raw.
  rewrite <- String.eqb_eq.
  generalize (hasSecurityHeaders sim), (hasMaliciousExt inputUrl),
    (hasPhishingPattern inputUrl),
    (Z.of_nat (String.length inputUrl) >? 200),
    (isDomainSuspicious (URL.hostname u)),
    ((URL.protocol u =? "https:")%string).
  intros [] [] [] [] [] []; vm_compute;
    (split; [intros H; try discriminate H; repeat split; lia
            | intros (H1 & H2 & H3 & H4);
              try discriminate H1; try discriminate H2; try discriminate H3;
              try reflexivity; lia]).
Qed.

Lemma safe_verdict_characterised_witness :
  exists r,
    performComprehensiveScan basicURL "https://bit.ly/3xYz" headersPass 0
      = Return r /\
    (ScanResult.status r = safe <->
     "https:" = "https:" /\
     hasPhishingPattern "https://bit.ly/3xYz" = false /\
     hasMaliciousExt "https://bit.ly/3xYz" = false /\
     (countTrue [isDomainSuspicious "bit.ly";
                 Z.of_nat (String.length "https://bit.ly/3xYz") >? 200;
                 negb (hasSecurityHeaders headersPass)] <= 1)%nat).
Proof.
  apply (safe_verdict_characterised basicURL "https://bit.ly/3xYz"
           (URL.mk "bit.ly" "https:" "")).
  reflexivity.
Defined.

(** X4. Two of the three grave findings, a protocol other than https, a
    phishing keyword, a dangerous extension, make the verdict unsafe; and
    a verdict is unsafe only if at least two of the six rules that cost
    points found something. *)
Theorem unsafe_verdict_needs_two_findings
    (new_URL : string -> Completion URL.t) (inputUrl : string) (u : URL.t)
    (sim : Simulated) (now : Z) :
  new_URL inputUrl = Return u ->
  exists r,
    performComprehensiveScan new_URL inputUrl sim now = Return r /\
    ((2 <= countTrue [negb (URL.protocol u =? "https:")%string;
                      hasPhishingPattern inputUrl;
                      hasMaliciousExt inputUrl])%nat ->
     ScanResult.status r = unsafe) /\
    (ScanResult.status r = unsafe ->
     (2 <= countTrue [negb (URL.protocol u =? "https:")%string;
                      isDomainSuspicious (URL.hostname u);
                      Z.of_nat (String.length inputUrl) >? 200;
                      hasPhishingPattern inputUrl;
                      hasMaliciousExt inputUrl;
                      negb (hasSecurityHeaders sim)])%nat).
Proof.
  intros Hu. eexists. split; [apply (scan_parsed new_URL _ _ _ _ Hu)|].
  cbn [ScanResult.status]. rewrite afterRules_raw.
  generalize (hasSecurityHeaders sim), (hasMaliciousExt inputUrl),
    (hasPhishingPattern inputUrl),
    (Z.of_nat (String.length inputUrl) >? 200),
    (isDomainSuspicious (URL.hostname u)),
    ((URL.protocol u =? "https:")%string).
  intros [] [] [] [] [] []; vm_compute;
    (split; intros H; try reflexivity; try discriminate H; lia).
Qed.

Lemma unsafe_verdict_needs_two_findings_witness :
  exists r,
    performComprehensiveScan basicURL "http://example.com/setup.exe"
      headersPass 0 = Return r /\
    ((2 <= countTrue [negb ("http:" =? "https:")%string;
                      hasPhishingPattern "http://example.com/setup.exe";
                      hasMaliciousExt "http://example.com/setup.exe"])%nat ->
     ScanResult.status r = unsafe) /\
    (ScanResult.status r = unsafe ->
     (2 <= countTrue [negb ("http:" =? "https:")%string;
                      isDomainSuspicious "example.com";
                      Z.of_nat (String.length "http://example.com/setup.exe")
                        >? 200;
                      hasPhishingPattern "http://example.com/setup.exe";
                      hasMaliciousExt "http://example.com/setup.exe";
                      negb (hasSecurityHeaders headersPass)])%nat).
Proof.
  apply (unsafe_verdict_needs_two_findings basicURL
           "http://example.com/setup.exe" (URL.mk "example.com" "http:" "")).
  reflexivity.
Defined.

Lemma all_pass_forallb (l : list SecurityCheck.t) :
  (forall c, In c l -> SecurityCheck.status c = pass) <->
  forallb (fun c => match SecurityCheck.status c with
                    | pass => true
                    | _ => false
                    end) l = true.
Proof.
  rewrite forallb_forall. split; intros H c Hc; specialize (H c Hc).
  - now rewrite H.
  - destruct (SecurityCheck.status c); [reflexivity | discriminate..].
Qed.

(** X5. A result has the score 100 exactly when all of its checks have
    passed. *)
Theorem full_score_iff_all_checks_pass
    (new_URL : string -> Completion URL.t) (inputUrl : string)
    (sim : Simulated) (now : Z) (r : ScanResult.t) :
  performComprehensiveScan new_URL inputUrl sim now = Return r ->
  (ScanResult.score r = 100 <->
   forall c, In c (ScanResult.checks r) -> SecurityCheck.status c = pass).
Proof.
  intros Hr. destruct (new_URL inputUrl) as [u|e] eqn:Hu.
  - rewrite (scan_parsed new_URL _ _ sim now Hu) in Hr.
    injection Hr as <-. cbn [ScanResult.score ScanResult.checks].
    rewrite all_pass_forallb, afterRules_raw, afterRules_checks.
    generalize (hasSecurityHeaders sim), (hasMaliciousExt inputUrl),
      (hasPhishingPattern inputUrl),
      (Z.of_nat (String.length inputUrl) >? 200),
      (isDomainSuspicious (URL.hostname u)),
      ((URL.protocol u =? "https:")%string).
    intros [] [] [] [] [] []; vm_compute; split; congruence.
  - destruct (scan_unparsed new_URL _ _ sim now Hu) as [_ Ht].
    rewrite Ht in Hr. discriminate.
Qed.

Lemma full_score_iff_all_checks_pass_witness :
  exists r,
    performComprehensiveScan basicURL "https://example.com/docs" headersPass 0
      = Return r /\
    (ScanResult.score r = 100 <->
     forall c, In c (ScanResult.checks r) -> SecurityCheck.status c = pass).
Proof.
  eexists. split; [vm_compute; reflexivity|].
  apply (full_score_iff_all_checks_pass basicURL "https://example.com/docs"
           headersPass 0).
  vm_compute; reflexivity.
Defined.

(** X6. No result ever carries the URL Format check of the [catch] block:
    a scan that returns has parsed its input, reports the input as its
    [url], and none of its checks is named URL Format. *)
Theorem url_format_check_never_returned
    (new_URL : string -> Completion URL.t) (inputUrl : string)
    (sim : Simulated) (now : Z) (r : ScanResult.t) :
  performComprehensiveScan new_URL inputUrl sim now = Return r ->
  (exists u, new_URL inputUrl = Return u) /\
  ScanResult.url r = inputUrl /\
  forall c, In c (ScanResult.checks r) -> SecurityCheck.name c <> "URL Format".
Proof.
  intros Hr. destruct (new_URL inputUrl) as [u|e] eqn:Hu.
  - rewrite (scan_parsed new_URL _ _ sim now Hu) in Hr.
    injection Hr as <-. cbn [ScanResult.url ScanResult.checks].
    split; [now exists u|]. split; [reflexivity|].
    intros c Hc Hname.
    apply (in_map SecurityCheck.name) in Hc.
    rewrite afterRules_names, Hname in Hc. cbn in Hc.
    repeat (destruct Hc as [Hc | Hc]; [discriminate Hc|]). exact Hc.
  - destruct (scan_unparsed new_URL _ _ sim now Hu) as [_ Ht].
    rewrite Ht in Hr. discriminate.
Qed.

Lemma url_format_check_never_returned_witness :
  exists r,
    performComprehensiveScan basicURL "http://localhost:5173" headersWarn 7
      = Return r /\
    (exists u, basicURL "http://localhost:5173" = Return u) /\
    ScanResult.url r = "http://localhost:5173" /\
    forall c, In c (ScanResult.checks r) -> SecurityCheck.name c <> "URL Format".
Proof.
  eexists. split; [vm_compute; reflexivity|].
  apply (url_format_check_never_returned basicURL "http://localhost:5173"
           headersWarn 7).
  vm_compute; reflexivity.
Defined.

(** X7. Every host that ends in [t.com] contains [t.co] and so is flagged
    by the Domain Reputation rule: its scan carries the Domain Reputation
    warning and scores at most 80. *)
Theorem hosts_ending_in_t_com_are_flagged
    (new_URL : string -> Completion URL.t) (inputUrl front : string)
    (u : URL.t) (sim : Simulated) (now : Z) :
  new_URL inputUrl = Return u ->
  URL.hostname u = front ++ "t.com" ->
  exists r,
    performComprehensiveScan new_URL inputUrl sim now = Return r /\
    nth_error (ScanResult.checks r) 1 =
      Some (check "Domain Reputation" warning
              "Domain is a URL shortener or potentially suspicious" medium) /\
    ScanResult.score r <= 80.
Proof.
  intros Hu Hhost.
  assert (Hflag : isDomainSuspicious (URL.hostname u) = true).
  { rewrite Hhost. unfold isDomainSuspicious.
    apply some_true with (x := "t.co"); [cbn; auto|].
    change (front ++ "t.com") with (front ++ "t.co" ++ "m").
    apply includes_app. }
  eexists. split; [apply (scan_parsed new_URL _ _ _ _ Hu)|].
  cbn [ScanResult.checks ScanResult.score].
  rewrite afterRules_checks, afterRules_raw, Hflag. split; [reflexivity|].
  destruct (URL.protocol u =? "https:")%string,
    (Z.of_nat (String.length inputUrl) >? 200),
    (hasPhishingPattern inputUrl), (hasMaliciousExt inputUrl),
    (hasSecurityHeaders sim); vm_compute; discriminate.
Qed.

Lemma hosts_ending_in_t_com_are_flagged_witness :
  exists r,
    performComprehensiveScan basicURL "https://www.microsoft.com/"
      headersPass 0 = Return r /\
    nth_error (ScanResult.checks r) 1 =
      Some (check "Domain Reputation" warning
              "Domain is a URL shortener or potentially suspicious" medium) /\
    ScanResult.score r <= 80.
Proof.
  apply (hosts_ending_in_t_com_are_flagged basicURL
           "https://www.microsoft.com/" "www.microsof"
           (URL.mk "www.microsoft.com" "https:" ""));
    reflexivity.
Defined.

(** X8. Between a scan in which the Security Headers rule passes and a
    scan of the same input in which it warns, the score differs by at most
    15, the passing scan having the higher or equal score; and the verdict
    may differ: [https://bit.ly/3xYz] is safe in the one and suspicious in
    the other. *)
Theorem headers_coin_moves_score_by_at_most_15 :
  (forall (new_URL : string -> Completion URL.t) (inputUrl : string)
          (u : URL.t) (sim sim' : Simulated) (now now' : Z),
     new_URL inputUrl = Return u ->
     hasSecurityHeaders sim = true ->
     hasSecurityHeaders sim' = false ->
     exists r r',
       performComprehensiveScan new_URL inputUrl sim now = Return r /\
       performComprehensiveScan new_URL inputUrl sim' now' = Return r' /\
       ScanResult.score r' <= ScanResult.score r <= ScanResult.score r' + 15) /\
  (exists r r',
     performComprehensiveScan basicURL "https://bit.ly/3xYz" headersPass 0
       = Return r /\
     performComprehensiveScan basicURL "https://bit.ly/3xYz" headersWarn 0
       = Return r' /\
     ScanResult.status r = safe /\ ScanResult.status r' = suspicious).
Proof.
  split.
  - intros new_URL inputUrl u sim sim' now now' Hu Hpass Hwarn.
    do 2 eexists.
    split; [apply (scan_parsed new_URL _ _ _ _ Hu)|].
    split; [apply (scan_parsed new_URL _ _ _ _ Hu)|].
    cbn [ScanResult.score]. rewrite !afterRules_raw, Hpass, Hwarn.
    destruct (URL.protocol u =? "https:")%string,
      (isDomainSuspicious (URL.hostname u)),
      (Z.of_nat (String.length inputUrl) >? 200),
      (hasPhishingPattern inputUrl), (hasMaliciousExt inputUrl);
      vm_compute; split; discriminate.
  - do 2 eexists.
    split; [apply (scan_parsed basicURL _ (URL.mk "bit.ly" "https:" ""));
            reflexivity|].
    split; [apply (scan_parsed basicURL _ (URL.mk "bit.ly" "https:" ""));
            reflexivity|].
    cbn [ScanResult.status]. split; vm_compute; reflexivity.
Qed.

Lemma headers_coin_moves_score_by_at_most_15_witness :
  exists r r',
    performComprehensiveScan basicURL "http://example.com/a.bat" headersPass 1
      = Return r /\
    performComprehensiveScan basicURL "http://example.com/a.bat" headersWarn 2
      = Return r' /\
    ScanResult.score r' <= ScanResult.score r <= ScanResult.score r' + 15.
Proof.
  apply (proj1 headers_coin_moves_score_by_at_most_15 basicURL
           "http://example.com/a.bat" (URL.mk "example.com" "http:" ""));
    reflexivity.
Defined.

(** X9. None of the seven rules throws; each appends exactly one check to
    the checks made so far and lowers the score by a number of points
    between 0 and 35, never raising it. *)
Theorem rules_append_one_check_and_only_subtract
    (protocol domain inputUrl : string) (sim : Simulated) (rule : M unit)
    (st : Locals) :
  In rule [httpsCheck protocol; domainReputationCheck domain;
           urlLengthCheck inputUrl; phishingCheck inputUrl;
           fileTypeCheck inputUrl; sslCheck protocol;
           securityHeadersCheck sim] ->
  exists c points,
    rule st = (Return tt, {| checks := checks st ++ [c];
                             score := score st - points |}) /\
    0 <= points <= 35.
Proof.
  intros Hrule. cbn [In] in Hrule.
  assert (Hsame : forall x, x - 0 = x) by (intros; lia).
  repeat (destruct Hrule as [<- | Hrule]); [..|destruct Hrule].
  - unfold httpsCheck. destruct (protocol =? "https:")%string.
    + eexists _, 0. rewrite Hsame. split; [reflexivity | lia].
    + eexists _, 30. split; [reflexivity | lia].
  - unfold domainReputationCheck. destruct (isDomainSuspicious domain).
    + eexists _, 20. split; [reflexivity | lia].
    + eexists _, 0. rewrite Hsame. split; [reflexivity | lia].
  - unfold urlLengthCheck.
    destruct (Z.of_nat (String.length inputUrl) >? 200).
    + eexists _, 10. split; [reflexivity | lia].
    + eexists _, 0. rewrite Hsame. split; [reflexivity | lia].
  - unfold phishingCheck. destruct (hasPhishingPattern inputUrl).
    + eexists _, 25. split; [reflexivity | lia].
    + eexists _, 0. rewrite Hsame. split; [reflexivity | lia].
  - unfold fileTypeCheck. destruct (hasMaliciousExt inputUrl).
    + eexists _, 35. split; [reflexivity | lia].
    + eexists _, 0. rewrite Hsame. split; [reflexivity | lia].
  - unfold sslCheck. destruct (protocol =? "https:")%string;
      eexists _, 0; rewrite Hsame; (split; [reflexivity | lia]).
  - unfold securityHeadersCheck.
    destruct (hasSecurityHeaders sim); cbv zeta.
    + eexists _, 0. rewrite Hsame. split; [reflexivity | lia].
    + eexists _, 15. split; [reflexivity | lia].
Qed.

Lemma rules_append_one_check_and_only_subtract_witness :
  exists c points,
    fileTypeCheck "https://example.com/Setup.EXE"
      {| checks := []; score := 100 |} =
    (Return tt, {| checks := [] ++ [c]; score := 100 - points |}) /\
    0 <= points <= 35.
Proof.
  apply (rules_append_one_check_and_only_subtract "https:" "example.com"
           "https://example.com/Setup.EXE" headersPass).
  do 4 right. left. reflexivity.
Defined.

(** ** Further properties of the components *)

Lemma In_firstn {A : Type} (n : nat) (l : list A) (x : A) :
  In x (firstn n l) -> In x l.
Proof.
  intros H. rewrite <- (firstn_skipn n l). apply in_or_app. now left.
Qed.

Lemma scan_returns_parsed (new_URL : string -> Completion URL.t)
    (inputUrl : string) (sim : Simulated) (now : Z) (r : ScanResult.t) :
  performComprehensiveScan new_URL inputUrl sim now = Return r ->
  exists u,
    new_URL inputUrl = Return u /\
    r = ScanResult.mk inputUrl
          (overallStatus (score (afterRules u inputUrl sim)))
          (Z.max 0 (score (afterRules u inputUrl sim)))
          (checks (afterRules u inputUrl sim)) (metadataOf u sim) now.
Proof.
  intros Hr. destruct (new_URL inputUrl) as [u|e] eqn:Hu.
  - exists u. split; [reflexivity|].
    rewrite (scan_parsed new_URL _ _ sim now Hu) in Hr. now injection Hr.
  - destruct (scan_unparsed new_URL _ _ sim now Hu) as [_ Ht].
    rewrite Ht in Hr. discriminate.
Qed.

Lemma rich_scanned_cases (new_URL : string -> Completion URL.t)
    (c : Rich.State) (e : Rich.Event) :
  Rich.scanned new_URL c e = [] \/
  exists sim now r,
    e = Rich.Scan sim now /\ trim (Rich.url c) <> "" /\
    performComprehensiveScan new_URL (trim (Rich.url c)) sim now = Return r /\
    Rich.scanned new_URL c e = [r].
Proof.
  destruct e as [value|sim now|isImage pick| |historyUrl]; try now left.
  unfold Rich.scanned.
  destruct (truthy (trim (Rich.url c))) eqn:Ht; [|now left].
  destruct (performComprehensiveScan new_URL (trim (Rich.url c)) sim now)
    as [r|err] eqn:Hr; [|now left].
  right. exists sim, now, r. cbn [negb]. repeat split; try reflexivity.
  - now apply truthy_nonempty.
  - exact Hr.
Qed.

Lemma rich_scanned_entry (new_URL : string -> Completion URL.t)
    (c : Rich.State) (e : Rich.Event) (r : ScanResult.t) :
  In r (Rich.scanned new_URL c e) -> scannedEntry new_URL r.
Proof.
  destruct (rich_scanned_cases new_URL c e)
    as [-> | (sim & now & r' & _ & Hne & Hr & ->)]; [intros []|].
  intros [<- | []].
  destruct (scan_returns_parsed new_URL _ _ _ _ Hr) as (u & _ & Hshape).
  assert (Hurl : ScanResult.url r' = trim (Rich.url c))
    by (rewrite Hshape; reflexivity).
  unfold scannedEntry. rewrite Hurl. split; [apply trim_idempotent|].
  split; [exact Hne|]. now exists sim, now.
Qed.

Lemma rich_step_entries (new_URL : string -> Completion URL.t)
    (c : Rich.State) (e : Rich.Event) (r : ScanResult.t) :
  In r (Rich.scanHistory (Rich.step new_URL c e)) ->
  In r (Rich.scanned new_URL c e) \/ In r (Rich.scanHistory c).
Proof.
  rewrite rich_scanned_history.
  destruct (rich_scanned_cases new_URL c e)
    as [-> | (sim & now & r' & _ & _ & _ & ->)]; [now right|].
  unfold recordAll, historyUpdater, slice0. cbn [fold_left].
  intros [<- | H]; [left; now left | right; exact (In_firstn _ _ _ H)].
Qed.

Lemma rich_entries_scanned (new_URL : string -> Completion URL.t)
    (events : list Rich.Event) (r : ScanResult.t) :
  In r (Rich.scanHistory (Rich.run new_URL events Rich.initial)) ->
  scannedEntry new_URL r.
Proof.
  assert (Hinv : forall c,
    (forall x, In x (Rich.scanHistory c) -> scannedEntry new_URL x) ->
    forall x, In x (Rich.scanHistory (Rich.run new_URL events c)) ->
              scannedEntry new_URL x).
  { unfold Rich.run. induction events as [|e es IH]; intros c Hc x;
      [apply Hc|].
    cbn [fold_left]. apply IH. intros y Hy.
    destruct (rich_step_entries new_URL c e y Hy) as [Hnew | Hold].
    - exact (rich_scanned_entry new_URL c e y Hnew).
    - exact (Hc y Hold). }
  apply (Hinv Rich.initial). intros x [].
Qed.

(** X10. Every entry of the richer history has been returned by a scan of
    its own [url], and that [url] is trimmed, not empty and parsable: the
    history never holds an entry for a blank or an unparsable input. *)
Theorem rich_history_holds_scanned_entries
    (new_URL : string -> Completion URL.t) (events : list Rich.Event) :
  Forall
    (fun r =>
       trim (ScanResult.url r) = ScanResult.url r /\
       ScanResult.url r <> "" /\
       (exists u, new_URL (ScanResult.url r) = Return u) /\
       exists sim now,
         performComprehensiveScan new_URL (ScanResult.url r) sim now
           = Return r)
    (Rich.scanHistory (Rich.run new_URL events Rich.initial)).
Proof.
  apply Forall_forall. intros r Hr.
  destruct (rich_entries_scanned new_URL events r Hr)
    as (Htrim & Hne & sim & now & Hscan).
  repeat split; try assumption.
  - destruct (scan_returns_parsed new_URL _ _ _ _ Hscan) as (u & Hu & _).
    now exists u.
  - now exists sim, now.
Qed.

(** X11. A scan asked for while the input box is empty or holds white
    space only scans nothing: the richer component only shows the toast
    Invalid Input, the simpler component does not change at all. *)
Theorem blank_input_is_not_scanned
    (new_URL : string -> Completion URL.t) (sim : Simulated) (now : Z)
    (c : Rich.State) (c' : Simple.State) :
  isBlank (Rich.url c) = true ->
  isBlank (Simple.url c') = true ->
  Rich.handleScan new_URL sim now c = Rich.toast "Invalid Input" c /\
  Rich.scanned new_URL c (Rich.Scan sim now) = [] /\
  Simple.handleScan now c' = c' /\
  Simple.scanned c' (Simple.Scan now) = [].
Proof.
  intros Hc Hc'.
  unfold Rich.handleScan, Rich.scanned, Simple.handleScan, Simple.scanned.
  rewrite (trim_blank _ Hc), (trim_blank _ Hc'). repeat split.
Qed.

Lemma blank_input_is_not_scanned_witness :
  let c := Rich.setUrl "   " Rich.initial in
  let c' := Simple.setUrl "" Simple.initial in
  Rich.handleScan basicURL headersPass 0 c = Rich.toast "Invalid Input" c /\
  Rich.scanned basicURL c (Rich.Scan headersPass 0) = [] /\
  Simple.handleScan 0 c' = c' /\
  Simple.scanned c' (Simple.Scan 0) = [].
Proof.
  intros c c'.
  apply (blank_input_is_not_scanned basicURL headersPass 0 c c');
    reflexivity.
Defined.

(** X12. When the input does not parse, [handleScan] of the richer
    component shows the toast Scan Failed and leaves the displayed result
    and the history as they were: the result of an earlier scan stays on
    display. *)
Theorem failed_scan_keeps_earlier_result
    (new_URL : string -> Completion URL.t) (sim : Simulated) (now : Z)
    (c : Rich.State) (e : Error) :
  trim (Rich.url c) <> "" ->
  new_URL (trim (Rich.url c)) = Throw e ->
  let c' := Rich.handleScan new_URL sim now c in
  Rich.scanResult c' = Rich.scanResult c /\
  Rich.scanHistory c' = Rich.scanHistory c /\
  Rich.url c' = Rich.url c /\
  Rich.isScanning c' = false /\
  Rich.toasts c' = (Rich.toasts c ++ ["Scan Failed"])%list.
Proof.
  intros Hne He. unfold Rich.handleScan.
  apply truthy_nonempty in Hne. rewrite Hne. cbn [negb].
  destruct (scan_unparsed new_URL _ _ sim now He) as [_ ->].
  repeat split.
Qed.

Lemma failed_scan_keeps_earlier_result_witness :
  let c :=
    Rich.run basicURL
      [Rich.Edit "https://example.com"; Rich.Scan headersPass 1;
       Rich.Edit "example.com"] Rich.initial in
  let c' := Rich.handleScan basicURL headersPass 2 c in
  Rich.scanResult c' = Rich.scanResult c /\
  Rich.scanHistory c' = Rich.scanHistory c /\
  Rich.url c' = Rich.url c /\
  Rich.isScanning c' = false /\
  Rich.toasts c' = (Rich.toasts c ++ ["Scan Failed"])%list.
Proof.
  intros c.
  apply (failed_scan_keeps_earlier_result basicURL headersPass 2 c TypeError).
  - vm_compute. discriminate.
  - vm_compute. reflexivity.
Defined.

(** X13. In the richer component the displayed result, when there is
    one, is the newest entry of the history. *)
Theorem displayed_result_is_newest_entry
    (new_URL : string -> Completion URL.t) (events : list Rich.Event) :
  let c := Rich.run new_URL events Rich.initial in
  Rich.scanResult c = None \/
  Rich.scanResult c = hd_error (Rich.scanHistory c).
Proof.
  assert (Hinv : forall c,
    (Rich.scanResult c = None \/
     Rich.scanResult c = hd_error (Rich.scanHistory c)) ->
    Rich.scanResult (Rich.run new_URL events c) = None \/
    Rich.scanResult (Rich.run new_URL events c) =
      hd_error (Rich.scanHistory (Rich.run new_URL events c))).
  { unfold Rich.run. induction events as [|e es IH]; intros c Hc;
      [exact Hc|].
    cbn [fold_left]. apply IH.
    destruct e as [value|sim now|[] pick| |historyUrl]; cbn [Rich.step];
      try exact Hc.
    - unfold Rich.handleScan.
      destruct (negb (truthy (trim (Rich.url c)))); [exact Hc|].
      destruct (performComprehensiveScan new_URL (trim (Rich.url c)) sim now);
        [right; reflexivity | exact Hc].
    - unfold Rich.exportResults. destruct (Rich.scanResult c) eqn:E;
        [cbn [Rich.toast Rich.scanResult Rich.scanHistory]|];
        rewrite ?E; exact Hc.
    - left. reflexivity. }
  apply Hinv. now left.
Qed.

(** X14. The history holds as many entries as results have been handed
    to it, up to its cap and then exactly its cap. The cap is 20 in the
    richer component and 10 in the simpler one. *)
Theorem history_length_is_results_up_to_cap
    (new_URL : string -> Completion URL.t)
    (events : list Rich.Event) (events' : list Simple.Event) :
  length (Rich.scanHistory (Rich.run new_URL events Rich.initial)) =
    Nat.min 20 (length (Rich.results new_URL events Rich.initial)) /\
  length (Simple.scanHistory (Simple.run events' Simple.initial)) =
    Nat.min 10 (length (Simple.results events' Simple.initial)).
Proof.
  rewrite rich_history_log, simple_history_log.
  rewrite !recordAll_firstn by (cbn; lia).
  rewrite !length_firstn, !app_nil_r, !length_rev. split; reflexivity.
Qed.

(** X15. White space around the text of the input box does not matter:
    the richer component scans the trimmed text, so the text and its
    trimmed form lead to the same result, history and toasts. *)
Theorem surrounding_white_space_is_ignored
    (new_URL : string -> Completion URL.t) (value : string)
    (sim : Simulated) (now : Z) (c : Rich.State) :
  let c1 := Rich.run new_URL [Rich.Edit value; Rich.Scan sim now] c in
  let c2 := Rich.run new_URL [Rich.Edit (trim value); Rich.Scan sim now] c in
  Rich.scanResult c1 = Rich.scanResult c2 /\
  Rich.scanHistory c1 = Rich.scanHistory c2 /\
  Rich.toasts c1 = Rich.toasts c2.
Proof.
  unfold Rich.run. cbn [fold_left Rich.step]. unfold Rich.handleScan.
  cbn [Rich.url Rich.setUrl]. rewrite trim_idempotent.
  destruct (negb (truthy (trim value))); [repeat split|].
  destruct (performComprehensiveScan new_URL (trim value) sim now);
    repeat split.
Qed.

Lemma afterRules_first_six (u : URL.t) (inputUrl : string)
    (sim sim' : Simulated) :
  firstn 6 (checks (afterRules u inputUrl sim)) =
  firstn 6 (checks (afterRules u inputUrl sim')).
Proof. rewrite !afterRules_checks. reflexivity. Qed.

Lemma afterRules_within_15 (u : URL.t) (inputUrl : string)
    (sim sim' : Simulated) :
  Z.abs (Z.max 0 (score (afterRules u inputUrl sim)) -
         Z.max 0 (score (afterRules u inputUrl sim'))) <= 15.
Proof.
  rewrite !afterRules_raw.
  destruct (URL.protocol u =? "https:")%string,
    (isDomainSuspicious (URL.hostname u)),
    (Z.of_nat (String.length inputUrl) >? 200),
    (hasPhishingPattern inputUrl), (hasMaliciousExt inputUrl),
    (hasSecurityHeaders sim), (hasSecurityHeaders sim');
    vm_compute; discriminate.
Qed.

(** X16. Rescan on an entry of the richer history, followed by a scan,
    never fails: it puts a new result for the same [url] in front of the
    history and on display; the new result agrees with the entry on the
    first six checks, and its score is within 15 points of the entry's. *)
Theorem rescan_of_history_entry_succeeds
    (new_URL : string -> Completion URL.t) (events : list Rich.Event)
    (entry : ScanResult.t) (sim : Simulated) (now : Z) :
  let c := Rich.run new_URL events Rich.initial in
  In entry (Rich.scanHistory c) ->
  let c' :=
    Rich.run new_URL
      [Rich.Rescan (ScanResult.url entry); Rich.Scan sim now] c in
  exists r,
    Rich.scanHistory c' = r :: firstn 19 (Rich.scanHistory c) /\
    Rich.scanResult c' = Some r /\
    ScanResult.url r = ScanResult.url entry /\
    firstn 6 (ScanResult.checks r) = firstn 6 (ScanResult.checks entry) /\
    Z.abs (ScanResult.score r - ScanResult.score entry) <= 15.
Proof.
  intros c Hin c'.
  destruct (rich_entries_scanned new_URL events entry Hin)
    as (Htrim & Hne & sim0 & now0 & Hscan).
  destruct (scan_returns_parsed new_URL _ _ _ _ Hscan) as (u & Hu & Hshape).
  clearbody c. subst c'. unfold Rich.run. cbn [fold_left Rich.step].
  unfold Rich.handleScan, Rich.rescanFromHistory.
  cbn [Rich.url Rich.setUrl Rich.setScanResult]. rewrite Htrim.
  apply truthy_nonempty in Hne. rewrite Hne. cbn [negb].
  rewrite (scan_parsed new_URL _ _ sim now Hu).
  eexists. split; [reflexivity|]. split; [reflexivity|].
  cbn [ScanResult.url ScanResult.checks ScanResult.score].
  split; [reflexivity|]. rewrite Hshape.
  cbn [ScanResult.url ScanResult.checks ScanResult.score].
  split; [apply afterRules_first_six | apply afterRules_within_15].
Qed.

Lemma rescan_of_history_entry_succeeds_witness :
  let events :=
    [Rich.Edit "http://example.com/a.bat"; Rich.Scan headersWarn 1;
     Rich.Edit "https://github.com"; Rich.Scan headersPass 2] in
  let c := Rich.run basicURL events Rich.initial in
  let c' :=
    Rich.run basicURL
      [Rich.Rescan "http://example.com/a.bat"; Rich.Scan headersPass 3] c in
  exists r,
    Rich.scanHistory c' = r :: firstn 19 (Rich.scanHistory c) /\
    Rich.scanResult c' = Some r /\
    ScanResult.url r = "http://example.com/a.bat" /\
    firstn 6 (ScanResult.checks r) =
      firstn 6 (checks (afterRules (URL.mk "example.com" "http:" "")
                          "http://example.com/a.bat" headersWarn)) /\
    Z.abs (ScanResult.score r - 20) <= 15.
Proof.
  intros events c c'.
  apply (rescan_of_history_entry_succeeds basicURL events
           (ScanResult.mk "http://example.com/a.bat" unsafe 20
              (checks (afterRules (URL.mk "example.com" "http:" "")
                         "http://example.com/a.bat" headersWarn))
              (metadataOf (URL.mk "example.com" "http:" "") headersWarn) 1)
           headersPass 3).
  vm_compute. right. left. reflexivity.
Defined.

(** X17. An uploaded image puts one of the four sample URLs in the input
    box, and a scan that follows returns a result for it that is safe or
    suspicious, never unsafe, whatever the Security Headers rule finds;
    any other file changes nothing. *)
Theorem uploaded_sample_url_is_never_unsafe
    (pick : nat) (sim : Simulated) (now : Z) (c : Rich.State) :
  (pick < 4)%nat ->
  let c' :=
    Rich.run basicURL [Rich.FileUpload true pick; Rich.Scan sim now] c in
  Rich.handleFileUpload false pick c = c /\
  exists r,
    Rich.scanResult c' = Some r /\
    In (ScanResult.url r) Rich.simulatedUrls /\
    ScanResult.status r <> unsafe.
Proof.
  intros Hpick c'. split; [reflexivity|]. subst c'.
  unfold Rich.run. cbn [fold_left Rich.step].
  unfold Rich.handleFileUpload, Rich.handleScan.
  cbn [Rich.url Rich.setUrl Rich.toast].
  destruct pick as [|[|[|[|]]]]; [| | | |lia];
    cbn [nth Rich.simulatedUrls];
    match goal with
    | |- context [trim ?s] =>
        replace (trim s) with s by reflexivity;
        cbn [truthy negb];
        match s with
        | "https://example.com/qr-decoded" =>
            rewrite (scan_parsed basicURL s (URL.mk "example.com" "https:" "")
                       sim now eq_refl)
        | "https://google.com" =>
            rewrite (scan_parsed basicURL s (URL.mk "google.com" "https:" "")
                       sim now eq_refl)
        | "http://suspicious-site.com" =>
            rewrite (scan_parsed basicURL s
                       (URL.mk "suspicious-site.com" "http:" "")
                       sim now eq_refl)
        | "https://github.com" =>
            rewrite (scan_parsed basicURL s (URL.mk "github.com" "https:" "")
                       sim now eq_refl)
        end
    end;
    (eexists; split; [reflexivity|];
     cbn [ScanResult.url ScanResult.status];
     split; [cbn; auto|];
     rewrite afterRules_raw;
     destruct (hasSecurityHeaders sim); vm_compute; discriminate).
Qed.

Lemma uploaded_sample_url_is_never_unsafe_witness :
  let c' :=
    Rich.run basicURL [Rich.FileUpload true 2; Rich.Scan headersWarn 9]
      Rich.initial in
  Rich.handleFileUpload false 2 Rich.initial = Rich.initial /\
  exists r,
    Rich.scanResult c' = Some r /\
    In (ScanResult.url r) Rich.simulatedUrls /\
    ScanResult.status r <> unsafe.
Proof.
  apply (uploaded_sample_url_is_never_unsafe 2 headersWarn 9 Rich.initial).
  lia.
Defined.

(** ** Properties of the simpler component *)

Lemma startsWith_split (s p : string) :
  startsWith s p = true <-> exists rest, s = p ++ rest.
Proof.
  split.
  - revert s. induction p as [|c p IH]; intros s H.
    + now exists s.
    + destruct s as [|d s]; [discriminate H|]. cbn [startsWith] in H.
      apply andb_true_iff in H as [Hc Hs]. apply Ascii.eqb_eq in Hc as ->.
      destruct (IH s Hs) as [rest ->]. now exists rest.
  - intros [rest ->]. apply startsWith_app.
Qed.

Lemma substring_all (s : string) (m : nat) :
  (String.length s <= m)%nat -> substring 0 m s = s.
Proof.
  revert m. induction s as [|c s IH]; intros m Hm.
  - destruct m; reflexivity.
  - destruct m as [|m]; [cbn in Hm; lia|]. cbn [substring].
    rewrite IH; [reflexivity | cbn in Hm; lia].
Qed.

Lemma substring_behind (a b : string) (m : nat) :
  (String.length b <= m)%nat -> substring (String.length a) m (a ++ b) = b.
Proof.
  induction a as [|c a IH]; intros Hm.
  - now apply substring_all.
  - cbn [String.length append substring]. now apply IH.
Qed.

Lemma length_append (a b : string) :
  String.length (a ++ b) = (String.length a + String.length b)%nat.
Proof.
  induction a as [|c a IH]; [reflexivity|]. cbn. now rewrite IH.
Qed.

Lemma toLowerCase_split (s p rest : string) :
  toLowerCase s = p ++ rest ->
  exists a b, s = a ++ b /\ toLowerCase a = p /\ toLowerCase b = rest.
Proof.
  revert s. induction p as [|c p IH]; intros s H.
  - exists "", s. now repeat split.
  - destruct s as [|d s]; [discriminate H|].
    cbn [toLowerCase append] in H. injection H as Hd Hs.
    destruct (IH s Hs) as (a & b & -> & Ha & Hb).
    exists (String d a), b. cbn [toLowerCase append]. now rewrite Hd, Ha.
Qed.

Lemma behindScheme_spec (s rest : string) :
  Simple.behindScheme s = Some rest <->
  exists scheme,
    s = scheme ++ rest /\
    (toLowerCase scheme = "https://" \/ toLowerCase scheme = "http://").
Proof.
  unfold Simple.behindScheme. split.
  - destruct (startsWith (toLowerCase s) "https://") eqn:H8;
      [|destruct (startsWith (toLowerCase s) "http://") eqn:H7;
        [|discriminate]].
    + apply startsWith_split in H8 as [t Ht].
      destruct (toLowerCase_split _ _ _ Ht) as (a & b & -> & Ha & _).
      intros [= <-]. exists a. split; [|now left].
      replace 8%nat with (String.length a)
        by (rewrite <- (length_toLowerCase a), Ha; reflexivity).
      rewrite substring_behind; [reflexivity | rewrite length_append; lia].
    + apply startsWith_split in H7 as [t Ht].
      destruct (toLowerCase_split _ _ _ Ht) as (a & b & -> & Ha & _).
      intros [= <-]. exists a. split; [|now right].
      replace 7%nat with (String.length a)
        by (rewrite <- (length_toLowerCase a), Ha; reflexivity).
      rewrite substring_behind; [reflexivity | rewrite length_append; lia].
  - intros (scheme & -> & [H | H]).
    + rewrite toLowerCase_app, H, startsWith_app.
      replace 8%nat with (String.length scheme)
        by (rewrite <- (length_toLowerCase scheme), H; reflexivity).
      rewrite substring_behind; [reflexivity | rewrite length_append; lia].
    + rewrite toLowerCase_app, H.
      replace (startsWith ("http://" ++ toLowerCase rest) "https://")
        with false by reflexivity.
      rewrite startsWith_app.
      replace 7%nat with (String.length scheme)
        by (rewrite <- (length_toLowerCase scheme), H; reflexivity).
      rewrite substring_behind; [reflexivity | rewrite length_append; lia].
Qed.

Lemma validFormatTest_spec (inputUrl : string) :
  Simple.validFormatTest inputUrl = true <->
  exists scheme c1 c2 rest,
    inputUrl = scheme ++ String c1 (String c2 rest) /\
    (toLowerCase scheme = "https://" \/ toLowerCase scheme = "http://") /\
    Simple.isHostStart c1 = true /\
    Simple.isNotLineTerminator c2 = true /\
    all (fun c => negb (isWhiteSpace c)) rest = true.
Proof.
  unfold Simple.validFormatTest. split.
  - destruct (Simple.behindScheme inputUrl) as [[|c1 [|c2 rest]]|] eqn:Hb;
      try discriminate.
    intros H. apply andb_true_iff in H as [H Hrest].
    apply andb_true_iff in H as [H1 H2].
    apply behindScheme_spec in Hb as (scheme & -> & Hscheme).
    now exists scheme, c1, c2, rest.
  - intros (scheme & c1 & c2 & rest & -> & Hscheme & H1 & H2 & Hrest).
    assert (Hb : Simple.behindScheme (scheme ++ String c1 (String c2 rest))
                 = Some (String c1 (String c2 rest)))
      by (apply behindScheme_spec; now exists scheme).
    now rewrite Hb, H1, H2, Hrest.
Qed.

(** X18. The format test of [validateURL] accepts exactly the strings made
    of [http://] or [https://] in any mix of cases, one code unit that is
    neither white space nor one of [/ $ . ? #], one code unit that is no
    line terminator, and then code units that are no white space. *)
Theorem valid_format_shape (inputUrl : string) :
  Simple.validFormatTest inputUrl = true <->
  exists scheme c1 c2 rest,
    inputUrl = scheme ++ String c1 (String c2 rest) /\
    (toLowerCase scheme = "https://" \/ toLowerCase scheme = "http://") /\
    Simple.isHostStart c1 = true /\
    Simple.isNotLineTerminator c2 = true /\
    all (fun c => negb (isWhiteSpace c)) rest = true.
Proof. exact (validFormatTest_spec inputUrl). Qed.

Lemma valid_format_shape_witness :
  exists scheme c1 c2 rest,
    "HTTP://localhost:5173/" = scheme ++ String c1 (String c2 rest) /\
    (toLowerCase scheme = "https://" \/ toLowerCase scheme = "http://") /\
    Simple.isHostStart c1 = true /\
    Simple.isNotLineTerminator c2 = true /\
    all (fun c => negb (isWhiteSpace c)) rest = true.
Proof.
  apply (proj1 (valid_format_shape "HTTP://localhost:5173/")). reflexivity.
Defined.

Lemma lowerUnit_white_space (c : ascii) :
  isWhiteSpace (lowerUnit c) = isWhiteSpace c.
Proof. destruct c as [[] [] [] [] [] [] [] []]; reflexivity. Qed.

Lemma toLowerCase_no_white_space (s : string) :
  all (fun c => negb (isWhiteSpace c)) (toLowerCase s) =
  all (fun c => negb (isWhiteSpace c)) s.
Proof.
  induction s as [|c s IH]; [reflexivity|]. cbn [toLowerCase all].
  now rewrite lowerUnit_white_space, IH.
Qed.

Lemma all_app (p : ascii -> bool) (a b : string) :
  all p (a ++ b) = all p a && all p b.
Proof.
  induction a as [|c a IH]; [reflexivity|]. cbn [append all].
  now rewrite IH, andb_assoc.
Qed.

Lemma string_app_assoc (a b c : string) : (a ++ b) ++ c = a ++ b ++ c.
Proof.
  induction a as [|x a IH]; [reflexivity|]. cbn [append]. now rewrite IH.
Qed.

(** X19. [validateURL] calls a string safe only if it begins with
    [https://] in lower case, has between 10 and 200 code units, and
    contains, the case of letters set aside, none of bit.ly, tinyurl,
    t.co, goo.gl, localhost, 127.0.0.1, 192.168, 10. and 172. anywhere;
    it calls a string unsafe exactly when the format test fails, which it
    does on every string of fewer than 9 code units. *)
Theorem simple_verdicts (inputUrl : string) (now : Z) :
  let r := Simple.validateURL inputUrl now in
  (Simple.status r = safe ->
   startsWith inputUrl "https://" = true /\
   (10 <= String.length inputUrl <= 200)%nat /\
   forall p, In p ["bit.ly"; "tinyurl"; "t.co"; "goo.gl"; "localhost";
                   "127.0.0.1"; "192.168"; "10."; "172."] ->
             includes (toLowerCase inputUrl) p = false) /\
  (Simple.status r = unsafe <-> Simple.validFormatTest inputUrl = false) /\
  ((String.length inputUrl < 9)%nat -> Simple.status r = unsafe).
Proof.
  assert (Hlen : Simple.validFormatTest inputUrl = true ->
                 (9 <= String.length inputUrl)%nat /\
                 (startsWith inputUrl "https://" = true ->
                  (10 <= String.length inputUrl)%nat)).
  { intros H. apply validFormatTest_spec in H
      as (scheme & c1 & c2 & rest & -> & Hscheme & _).
    rewrite length_append. cbn [String.length].
    pose proof (length_toLowerCase scheme) as Hs.
    destruct Hscheme as [H8 | H7]; [rewrite H8 in Hs | rewrite H7 in Hs];
      cbn [String.length] in Hs; (split; [lia|]); intros Hhttps; [lia|].
    exfalso. apply startsWith_split in Hhttps as [t Ht].
    apply (f_equal toLowerCase) in Ht. rewrite !toLowerCase_app, H7 in Ht.
    discriminate Ht. }
  cbv zeta. unfold Simple.validateURL.
  cbn [Simple.status Simple.validFormat Simple.httpsUsed
       Simple.suspiciousPattern Simple.urlLength].
  destruct (Simple.validFormatTest inputUrl) eqn:Hvalid; cbn [negb].
  - destruct (Hlen eq_refl) as [H9 H10].
    destruct (startsWith inputUrl "https://") eqn:Hhttps; cbn [negb orb].
    + destruct (Simple.suspiciousPatternTest inputUrl) eqn:Hsusp; cbn [orb].
      * repeat split; intros; try discriminate; lia.
      * destruct (Z.of_nat (String.length inputUrl) >? 200) eqn:Hl;
          [repeat split; intros; try discriminate; lia|].
        pose proof (H10 eq_refl) as Hten.
        rewrite Z.gtb_ltb in Hl. apply Z.ltb_ge in Hl.
        unfold Simple.suspiciousPatternTest in Hsusp.
        rewrite some_false in Hsusp.
        repeat split; intros; try discriminate; try lia.
        now apply Hsusp.
    + repeat split; intros; try discriminate; lia.
  - repeat split; intros; try reflexivity; discriminate.
Qed.

Lemma simple_verdicts_witness :
  startsWith "https://example.com" "https://" = true /\
  (10 <= String.length "https://example.com" <= 200)%nat /\
  forall p, In p ["bit.ly"; "tinyurl"; "t.co"; "goo.gl"; "localhost";
                  "127.0.0.1"; "192.168"; "10."; "172."] ->
            includes (toLowerCase "https://example.com") p = false.
Proof.
  apply (proj1 (simple_verdicts "https://example.com" 0)). reflexivity.
Defined.

(** X20. A string that passes the format test of [validateURL] holds at
    most one white space, and only as the second code unit behind the
    scheme; there it is let through: [https://a b.com] passes the test and
    is called safe. *)
Theorem valid_format_white_space :
  (forall inputUrl,
     Simple.validFormatTest inputUrl = true ->
     exists front c back,
       inputUrl = front ++ String c back /\
       (String.length front = 8 \/ String.length front = 9)%nat /\
       all (fun x => negb (isWhiteSpace x)) front = true /\
       all (fun x => negb (isWhiteSpace x)) back = true) /\
  Simple.validFormatTest "https://a b.com" = true /\
  Simple.status (Simple.validateURL "https://a b.com" 0) = safe.
Proof.
  split; [|split; reflexivity].
  intros inputUrl H.
  apply validFormatTest_spec in H
    as (scheme & c1 & c2 & rest & -> & Hscheme & H1 & _ & Hrest).
  exists (scheme ++ String c1 ""), c2, rest.
  rewrite string_app_assoc. cbn [append]. split; [reflexivity|].
  rewrite length_append, all_app. cbn [String.length all].
  rewrite <- (length_toLowerCase scheme), <- toLowerCase_no_white_space.
  unfold Simple.isHostStart in H1.
  rewrite !negb_orb, !andb_true_iff in H1.
  destruct H1 as [[[[[Hws _] _] _] _] _]. rewrite Hws.
  destruct Hscheme as [-> | ->]; cbn; repeat split; auto.
Qed.

Lemma valid_format_white_space_witness :
  exists front c back,
    "http://a b" = front ++ String c back /\
    (String.length front = 8 \/ String.length front = 9)%nat /\
    all (fun x => negb (isWhiteSpace x)) front = true /\
    all (fun x => negb (isWhiteSpace x)) back = true.
Proof.
  apply (proj1 valid_format_white_space). reflexivity.
Defined.

Lemma simple_step_invariant (c : Simple.State) (e : Simple.Event) :
  Simple.scanResult c = hd_error (Simple.scanHistory c) ->
  Forall validatedEntry (Simple.scanHistory c) ->
  Simple.scanResult (Simple.step c e) =
    hd_error (Simple.scanHistory (Simple.step c e)) /\
  Forall validatedEntry (Simple.scanHistory (Simple.step c e)).
Proof.
  intros Hres Hall. destruct e as [value|now|[]]; cbn [Simple.step];
    try (split; assumption).
  unfold Simple.handleScan.
  destruct (truthy (trim (Simple.url c))) eqn:Ht; cbn [negb];
    [|split; assumption].
  cbn [Simple.scanResult Simple.scanHistory]. unfold historyUpdater, slice0.
  split; [reflexivity|]. constructor.
  - unfold validatedEntry. cbn [Simple.validateURL Simple.resultUrl
                                 Simple.timestamp].
    split; [apply trim_idempotent|]. split; [|reflexivity].
    now apply truthy_nonempty.
  - apply Forall_forall. intros x Hx. rewrite Forall_forall in Hall.
    exact (Hall x (In_firstn _ _ _ Hx)).
Qed.

(** X21. In the simpler component the displayed result is always the
    newest entry of the history, and every entry of the history is what
    [validateURL] gives on the entry's own [url], which is trimmed and
    not empty. *)
Theorem simple_history_holds_validated_entries (events : list Simple.Event) :
  let c := Simple.run events Simple.initial in
  Simple.scanResult c = hd_error (Simple.scanHistory c) /\
  Forall
    (fun r =>
       trim (Simple.resultUrl r) = Simple.resultUrl r /\
       Simple.resultUrl r <> "" /\
       r = Simple.validateURL (Simple.resultUrl r) (Simple.timestamp r))
    (Simple.scanHistory c).
Proof.
  assert (Hinv : forall c,
    Simple.scanResult c = hd_error (Simple.scanHistory c) /\
    Forall validatedEntry (Simple.scanHistory c) ->
    Simple.scanResult (Simple.run events c) =
      hd_error (Simple.scanHistory (Simple.run events c)) /\
    Forall validatedEntry (Simple.scanHistory (Simple.run events c))).
  { unfold Simple.run. induction events as [|e es IH]; intros c Hc;
      [exact Hc|].
    cbn [fold_left]. apply IH. destruct Hc as [H1 H2].
    now apply simple_step_invariant. }
  apply (Hinv Simple.initial). split; [reflexivity | constructor].
Qed.

(** ** The history filter and the export *)

(** X22. With an empty filter the whole history is shown, and a filter
    that is the [url] of an entry, in any mix of cases, shows that entry. *)
Theorem filter_shows_all_when_empty_and_own_url
    (scanHistory : list ScanResult.t) (entry : ScanResult.t)
    (historyFilter : string) :
  In entry scanHistory ->
  toLowerCase historyFilter = toLowerCase (ScanResult.url entry) ->
  Rich.filteredHistory scanHistory "" = scanHistory /\
  In entry (Rich.filteredHistory scanHistory historyFilter).
Proof.
  intros Hin Hsame. unfold Rich.filteredHistory. split.
  - apply forallb_filter_id, forallb_forall. intros r _.
    apply includes_empty.
  - apply filter_In. split; [exact Hin|]. rewrite Hsame.
    apply includes_refl.
Qed.

Lemma filter_shows_all_when_empty_and_own_url_witness :
  let scanHistory :=
    Rich.scanHistory
      (Rich.run basicURL
         [Rich.Edit "https://GitHub.com/Rocq"; Rich.Scan headersPass 1;
          Rich.Edit "http://bit.ly/abc"; Rich.Scan headersPass 2]
         Rich.initial) in
  exists entry,
    nth_error scanHistory 1 = Some entry /\
    Rich.filteredHistory scanHistory "" = scanHistory /\
    In entry (Rich.filteredHistory scanHistory "HTTPS://github.com/rocq").
Proof.
  intros scanHistory. eexists. split; [vm_compute; reflexivity|].
  apply filter_shows_all_when_empty_and_own_url.
  - vm_compute. right. left. reflexivity.
  - reflexivity.
Defined.

Lemma includes_split (s q : string) :
  includes s q = true -> exists a b, s = a ++ q ++ b.
Proof.
  induction s as [|c s IH]; cbn [includes]; intros H.
  - rewrite orb_false_r in H. apply startsWith_split in H as [rest ->].
    now exists "", rest.
  - apply orb_true_iff in H as [H | H].
    + apply startsWith_split in H as [rest ->]. now exists "", rest.
    + destruct (IH H) as (a & b & ->). now exists (String c a), b.
Qed.

Lemma includes_trans (s q p : string) :
  includes s q = true -> includes q p = true -> includes s p = true.
Proof.
  intros Hsq Hqp.
  apply includes_split in Hsq as (a & b & ->).
  apply includes_split in Hqp as (a' & b' & ->).
  rewrite !string_app_assoc, <- (string_app_assoc a a').
  apply includes_app.
Qed.

(** X23. The filter does not look at the case of the letters of its text;
    a text whose lower-cased form contains the lower-cased form of another
    text shows only entries that the other text shows, namely what it
    gives on the entries shown for the other; and of the history of the
    component at most 20 entries are shown. *)
Theorem filter_narrows_history
    (new_URL : string -> Completion URL.t) (events : list Rich.Event)
    (scanHistory : list ScanResult.t) (historyFilter longer : string) :
  Rich.filteredHistory scanHistory (toLowerCase historyFilter) =
    Rich.filteredHistory scanHistory historyFilter /\
  (includes (toLowerCase longer) (toLowerCase historyFilter) = true ->
   Rich.filteredHistory scanHistory longer =
     Rich.filteredHistory (Rich.filteredHistory scanHistory historyFilter)
       longer) /\
  (length (Rich.filteredHistory
             (Rich.scanHistory (Rich.run new_URL events Rich.initial))
             historyFilter) <= 20)%nat.
Proof.
  unfold Rich.filteredHistory. repeat split.
  - now rewrite toLowerCase_idempotent.
  - intros Hlonger.
    induction scanHistory as [|r l IH]; [reflexivity|]. cbn [filter].
    destruct (includes (toLowerCase (ScanResult.url r)) (toLowerCase longer))
      eqn:Hmore.
    + rewrite (includes_trans _ _ _ Hmore Hlonger). cbn [filter].
      now rewrite Hmore, <- IH.
    + destruct (includes (toLowerCase (ScanResult.url r))
                  (toLowerCase historyFilter)); [cbn [filter]; rewrite Hmore|];
        exact IH.
  - eapply Nat.le_trans; [apply filter_length_le|].
    rewrite rich_history_log, recordAll_firstn by (cbn; lia).
    apply firstn_le_length.
Qed.

Lemma filter_narrows_history_witness :
  let scanHistory :=
    Rich.scanHistory
      (Rich.run basicURL
         [Rich.Edit "https://GitHub.com/Rocq"; Rich.Scan headersPass 1;
          Rich.Edit "http://bit.ly/abc"; Rich.Scan headersPass 2;
          Rich.Edit "https://github.com/"; Rich.Scan headersWarn 3]
         Rich.initial) in
  Rich.filteredHistory scanHistory "github.com/R" =
  Rich.filteredHistory (Rich.filteredHistory scanHistory "GitHub")
    "github.com/R".
Proof.
  intros scanHistory.
  apply (proj1 (proj2 (filter_narrows_history basicURL [] scanHistory
                         "GitHub" "github.com/R"))).
  reflexivity.
Defined.

Lemma numberToString_injective (m n : Z) :
  numberToString m = numberToString n -> m = n.
Proof.
  unfold numberToString. intros H.
  assert (Hback : forall z,
            NilZero.int_of_string (NilZero.string_of_int (Z.to_int z))
            = Some (Z.to_int z)).
  { intros z. apply NilZero.isi; destruct z as [|p|p]; cbn;
      try discriminate;
      intros [= Hp]; now apply (DecimalPos.Unsigned.to_uint_nonnil p). }
  apply (f_equal NilZero.int_of_string) in H. rewrite !Hback in H.
  injection H as H. apply (f_equal Z.of_int) in H.
  now rewrite !DecimalZ.of_to in H.
Qed.

Lemma append_cancel_l (p a b : string) : p ++ a = p ++ b -> a = b.
Proof.
  induction p as [|c p IH]; [trivial|]. cbn [append]. intros [= H].
  exact (IH H).
Qed.

Lemma append_cancel_r (a b q : string) : a ++ q = b ++ q -> a = b.
Proof.
  revert b. induction a as [|c a IH]; intros b H.
  - destruct b as [|d b]; [reflexivity|]. exfalso.
    apply (f_equal String.length) in H. rewrite !length_append in H.
    cbn [String.length] in H. lia.
  - destruct b as [|d b].
    + exfalso. apply (f_equal String.length) in H.
      rewrite !length_append in H. cbn [String.length] in H. lia.
    + cbn [append] in H. injection H as -> H. now rewrite (IH b H).
Qed.

(** X24. Two exports get the same file name only when they are made in
    the same millisecond; every name begins with [vulnerability-scan-] and
    ends in [.json]. *)
Theorem export_file_names_differ (now now' : Z) :
  (Rich.exportFileName now = Rich.exportFileName now' <-> now = now') /\
  startsWith (Rich.exportFileName now) "vulnerability-scan-" = true /\
  exists stamp, Rich.exportFileName now = stamp ++ ".json".
Proof.
  unfold Rich.exportFileName. repeat split.
  - intros H. apply append_cancel_l in H. apply append_cancel_r in H.
    now apply numberToString_injective.
  - now intros ->.
  - apply startsWith_app.
  - exists ("vulnerability-scan-" ++ numberToString now).
    now rewrite string_app_assoc.
Qed.

Lemma export_file_names_differ_witness :
  Rich.exportFileName 1700000000000 <> Rich.exportFileName 1700000000001.
Proof.
  intros H.
  apply (proj1 (proj1 (export_file_names_differ 1700000000000 1700000000001)))
    in H.
  discriminate H.
Defined.
